(** * Nightlights dashboard: a shallow embedding of [app.py]

    The dashboard asks a remote imagery service for the mean night-time
    radiance of every Chinese province in two selected months, computes the
    percentage change per province, derives a blue-to-red colour list and
    hands a table and a map widget to the presentation layer.

    Python floats and NumPy's [float64] are IEEE binary64 numbers; they are
    embedded as Rocq's primitive floats, whose operations are the same
    binary64 operations.  Python exceptions are embedded with an error
    monad, the calls to the remote service with a small interaction
    datatype that is run against an arbitrary stateful service.

    A Python sequence holds fewer than [2^63] items; statements about
    every input of [create_colormap] carry that bound on the length. *)

From Stdlib Require Import ZArith List String Ascii Bool Lia.
From Stdlib Require Import Floats HexString DecimalString.
From Stdlib Require Uint63.
Import ListNotations.

Open Scope Z_scope.

(** ** Python prelude *)

(** The exceptions that the modelled code can raise or let through. *)
Inductive exn : Type :=
| ValueError
| OverflowError
| EEException (msg : string).

Inductive result (A : Type) : Type :=
| Ok (a : A)
| Raise (e : exn).

Arguments Ok {A} a.
Arguments Raise {A} e.

Definition rbind {A B : Type} (r : result A) (k : A -> result B) : result B :=
  match r with
  | Ok a => k a
  | Raise e => Raise e
  end.

Declare Scope result_scope.
Delimit Scope result_scope with result.
Notation "x <- r ;; k" := (rbind r (fun x => k))
  (at level 61, r at next level, right associativity) : result_scope.
Notation "' pat <- r ;; k" := (rbind r (fun x => let 'pat := x in k))
  (at level 61, pat pattern, r at next level, right associativity)
  : result_scope.

(** A list comprehension whose element expression may raise: the first
    exception aborts the comprehension. *)
Fixpoint mapM {A B : Type} (f : A -> result B) (l : list A) : result (list B) :=
  match l with
  | [] => Ok []
  | a :: l' =>
      (b <- f a ;; bs <- mapM f l' ;; Ok (b :: bs))%result
  end.

(** Truth value of an optional number, as [if x and y] tests it: [None]
    is false, a float is false exactly when it compares equal to zero
    (so [-0.0] is false and NaN is true). *)
Definition truthy (v : option float) : bool :=
  match v with
  | None => false
  | Some x => negb (x =? 0)%float
  end.

(** [int(x)] on a float: truncation towards zero; NaN and the infinities
    raise. *)
Definition py_int (x : float) : result Z :=
  match Prim2SF x with
  | S754_nan => Raise ValueError
  | S754_infinity _ => Raise OverflowError
  | S754_zero _ => Ok 0
  | S754_finite s m e =>
      let a := Z.shiftl (Zpos m) e in
      Ok (if s then - a else a)
  end.

(** The builtins [min] and [max] over the elements of an array: the first
    element is kept until a later one compares strictly smaller (larger);
    an empty argument raises [ValueError]. *)
Definition py_min (xs : list float) : result float :=
  match xs with
  | [] => Raise ValueError
  | x :: t => Ok (fold_left (fun m y => if (y <? m)%float then y else m) t x)
  end.

Definition py_max (xs : list float) : result float :=
  match xs with
  | [] => Raise ValueError
  | x :: t => Ok (fold_left (fun m y => if (m <? y)%float then y else m) t x)
  end.

(** Format specifications [x], [02x], [d] and [02d] on integers.  Zero
    padding counts the sign, so a negative number is never padded at
    width two. *)
Definition format_x (n : Z) : string :=
  match n with
  | Z0 => "0"
  | Zpos p => Raw.of_pos p ""
  | Zneg p => String "-" (Raw.of_pos p "")
  end.

Definition zero_pad2 (s : string) : string :=
  if (String.length s <? 2)%nat then String "0" s else s.

Definition format_02x (n : Z) : string := zero_pad2 (format_x n).

Definition format_d (n : Z) : string := NilZero.string_of_int (Z.to_int n).

Definition format_02d (n : Z) : string := zero_pad2 (format_d n).

(** ** The NumPy routines called by [create_colormap] *)

(** A count or an index as a [float64]: exact up to [2^53], rounded to
    nearest above.  Counts and indices are below [2^63]. *)
Definition float_of_nat (n : nat) : float :=
  of_uint63 (Uint63.of_Z (Z.of_nat n)).

(** [np.interp(x, xp, fp)] for two sample points, one value at a time: a
    NaN stays, a value right of the last sample point takes the last
    value, one left of the first takes the first, one on a sample point
    takes its value, and the others are interpolated (from the other end
    when the first attempt is NaN).  The sample points are not checked to
    be increasing, and nothing raises. *)
Definition interp1 (xp fp : float * float) (x : float) : float :=
  let '(x0, x1) := xp in
  let '(y0, y1) := fp in
  if is_nan x then x
  else if (x1 <? x)%float then y1
  else if (x <? x0)%float then y0
  else if (x1 <=? x)%float then y1
  else if (x0 =? x)%float then y0
  else
    let slope := ((y1 - y0) / (x1 - x0))%float in
    let r := (slope * (x - x0) + y0)%float in
    if is_nan r then
      let r' := (slope * (x - x1) + y1)%float in
      if is_nan r' && (y0 =? y1)%float then y0 else r'
    else r.

Definition np_interp (x : list float) (xp fp : float * float) : list float :=
  map (interp1 xp fp) x.

(** Rows of a [(num, 3)] array. *)
Definition vec3 : Type := float * float * float.

Definition vmap (f : float -> float) (v : vec3) : vec3 :=
  let '(a, b, c) := v in (f a, f b, f c).

Definition vmap2 (f : float -> float -> float) (v w : vec3) : vec3 :=
  let '(a, b, c) := v in
  let '(a', b', c') := w in (f a a', f b b', f c c').

Definition vany (p : float -> bool) (v : vec3) : bool :=
  let '(a, b, c) := v in p a || p b || p c.

Definition set_last {A : Type} (l : list A) (a : A) : list A :=
  match l with
  | [] => []
  | _ => removelast l ++ [a]
  end.

(** [np.linspace(start, stop, num)] with the default [endpoint=True], for
    rows of three numbers.  With [div = num - 1] and [delta = stop - start],
    the column [arange(0, num)] is multiplied by [step = delta / div]; when
    some component of [step] is zero it is divided by [div] and then
    multiplied by [delta] instead; when [div] is zero it is multiplied by
    [delta].  The rows are then shifted by [start], and the last one is
    overwritten with [stop] when there are at least two. *)
Definition np_linspace (start stop : vec3) (num : nat) : list vec3 :=
  let div := (num - 1)%nat in
  let delta := vmap2 PrimFloat.sub stop start in
  let y := map float_of_nat (seq 0 num) in
  let scaled :=
    if (0 <? div)%nat then
      let step := vmap (fun d => d / float_of_nat div)%float delta in
      if vany (fun s => s =? 0)%float step then
        map (fun t => vmap (fun d => (t / float_of_nat div) * d)%float delta) y
      else
        map (fun t => vmap (fun s => t * s)%float step) y
    else
      map (fun t => vmap (fun d => t * d)%float delta) y in
  let shifted := map (fun v => vmap2 PrimFloat.add v start) scaled in
  if (1 <? num)%nat then set_last shifted stop else shifted.

(** ** [create_colormap] *)

Definition rgb_of_row (c : vec3) : result (Z * Z * Z) :=
  let '(c0, c1, c2) := c in
  (r <- py_int (c0 * 255)%float ;;
   g <- py_int (c1 * 255)%float ;;
   b <- py_int (c2 * 255)%float ;;
   Ok (r, g, b))%result.

Definition hex_of_rgb (rgb : Z * Z * Z) : string :=
  let '(r, g, b) := rgb in
  String "#" (format_02x r ++ format_02x g ++ format_02x b)%string.

Definition create_colormap (percentage_changes : list float)
  : result (list string) :=
  let colors : vec3 * vec3 := ((0, 0, 255), (1, 0, 0))%float in
  let norm_changes := percentage_changes in
  (lo <- py_min norm_changes ;;
   hi <- py_max norm_changes ;;
   let norm_changes := np_interp norm_changes (lo, hi) (0, 1)%float in
   colormap_values <-
     mapM rgb_of_row
       (np_linspace (fst colors) (snd colors) (List.length norm_changes)) ;;
   let hex_colors := map hex_of_rgb colormap_values in
   Ok hex_colors)%result.

(** ** The remote imagery service *)

(** A feature of a [reduceRegions(...).getInfo()] answer, restricted to
    the two properties the dashboard reads.  [mean = None] stands for a
    missing ["mean"] key as well as for a null value: both come out of
    [properties.get("mean", None)] as [None]. *)
Record Feature : Type := {
  ADM1_NAME : string;
  mean : option float
}.

(** An image collection as the client describes it to the service: the
    asset, the [ee.Filter.date] range and the selected band. *)
Record ImageCollection : Type := {
  ic_asset : string;
  ic_date : string * string;
  ic_band : string
}.

(** A filtered feature collection: the asset and the [ee.Filter.eq] pair. *)
Record FeatureCollection : Type := {
  fc_asset : string;
  fc_eq : string * string
}.

(** The requests that reach the service (the [getInfo()] calls). *)
Inductive ee_request : Type :=
| ReqSize (c : ImageCollection)
| ReqReduceRegions (c : ImageCollection) (regions : FeatureCollection) (scale : Z).

(** Computations that talk to the service. *)
Inductive prog (A : Type) : Type :=
| Ret (a : A)
| Throw (e : exn)
| SizeGetInfo (c : ImageCollection) (k : Z -> prog A)
| ReduceRegionsGetInfo (c : ImageCollection) (regions : FeatureCollection)
    (scale : Z) (k : list Feature -> prog A).

Arguments Ret {A} a.
Arguments Throw {A} e.
Arguments SizeGetInfo {A} c k.
Arguments ReduceRegionsGetInfo {A} c regions scale k.

Fixpoint pbind {A B : Type} (p : prog A) (f : A -> prog B) : prog B :=
  match p with
  | Ret a => f a
  | Throw e => Throw e
  | SizeGetInfo c k => SizeGetInfo c (fun n => pbind (k n) f)
  | ReduceRegionsGetInfo c r s k =>
      ReduceRegionsGetInfo c r s (fun fs => pbind (k fs) f)
  end.

Definition lift {A : Type} (r : result A) : prog A :=
  match r with
  | Ok a => Ret a
  | Raise e => Throw e
  end.

Declare Scope prog_scope.
Delimit Scope prog_scope with prog.
Notation "x <- p ;; k" := (pbind p (fun x => k))
  (at level 61, p at next level, right associativity) : prog_scope.

(** A service with a state of its own: every request is answered with a
    value or a failure, and may change the state. *)
Record EarthEngine (S : Type) : Type := {
  size_answer : ImageCollection -> S -> result Z * S;
  features_answer :
    ImageCollection -> FeatureCollection -> Z -> S -> result (list Feature) * S
}.

Arguments size_answer {S} _ _ _.
Arguments features_answer {S} _ _ _ _ _.

(** Running a computation against a service: the outcome and the requests
    sent, in order.  A failed request raises at the call. *)
Fixpoint run {S A : Type} (ee : EarthEngine S) (p : prog A) (s : S)
  : result A * list ee_request :=
  match p with
  | Ret a => (Ok a, [])
  | Throw e => (Raise e, [])
  | SizeGetInfo c k =>
      match size_answer ee c s with
      | (Ok n, s') =>
          let '(r, log) := run ee (k n) s' in (r, ReqSize c :: log)
      | (Raise e, _) => (Raise e, [ReqSize c])
      end
  | ReduceRegionsGetInfo c fc sc k =>
      match features_answer ee c fc sc s with
      | (Ok fs, s') =>
          let '(r, log) := run ee (k fs) s' in
          (r, ReqReduceRegions c fc sc :: log)
      | (Raise e, _) => (Raise e, [ReqReduceRegions c fc sc])
      end
  end.

(** ** Tables and the map widget *)

Inductive cell : Type :=
| CellNone
| CellFloat (x : float)
| CellStr (s : string).

(** A data frame: the column labels and the rows of cells. *)
Record DataFrame : Type := {
  columns : list string;
  rows : list (list cell)
}.

(** The dictionary appended to [data] for one region. *)
Record RegionRow : Type := {
  State : string;
  Start_Mean_Radiance : option float;
  End_Mean_Radiance : option float;
  Percentage_Change : option float
}.

Definition cell_of_number (v : option float) : cell :=
  match v with
  | None => CellNone
  | Some x => CellFloat x
  end.

Definition cells_of_row (r : RegionRow) : list cell :=
  [ CellStr (State r);
    cell_of_number (Start_Mean_Radiance r);
    cell_of_number (End_Mean_Radiance r);
    cell_of_number (Percentage_Change r) ].

(** [pd.DataFrame(data)] for a list of such dictionaries: the columns are
    their keys (no dictionary, no column). *)
Definition DataFrame_of_records (data : list RegionRow) : DataFrame :=
  {| columns :=
       match data with
       | [] => []
       | _ => [ "State"; "Start Mean Radiance"; "End Mean Radiance";
                "Percentage Change" ]%string
       end;
     rows := map cells_of_row data |}.

(** [pd.DataFrame({"Error": [...]})]. *)
Definition error_frame : DataFrame :=
  {| columns := [ "Error"%string ];
     rows := [ [ CellStr "No data available for the selected months." ] ] |}.

(** [geemap.Map(center=..., zoom=...)]. *)
Record Map : Type := {
  center : float * float;
  zoom : Z
}.

(** What [fetch_data] returns: a bare data frame on the early return, a
    2-tuple of a data frame and a map otherwise. *)
Inductive fetched : Type :=
| Frame (df : DataFrame)
| FrameAndMap (df : DataFrame) (m : Map).

Inductive pyobj : Type :=
| PyFrame (df : DataFrame)
| PyMap (m : Map)
| PyStr (s : string).

(** [a, b = v]: a tuple is taken apart; a data frame is iterated, which
    yields its column labels, and there must be exactly two of them. *)
Definition unpack2 (v : fetched) : result (pyobj * pyobj) :=
  match v with
  | FrameAndMap df m => Ok (PyFrame df, PyMap m)
  | Frame df =>
      match columns df with
      | [a; b] => Ok (PyStr a, PyStr b)
      | _ => Raise ValueError
      end
  end.

(** ** The server function *)

(** The selections of the four inputs, after [int(...)]. *)
Record Input : Type := {
  start_year : Z;
  start_month : Z;
  end_year : Z;
  end_month : Z
}.

(** The choices the form offers. *)
Definition year_choices : list Z := [2024; 2025].
Definition month_choices : list Z := [1; 2; 3; 4; 5; 6; 7; 8; 9; 10; 11; 12].

Definition china_states : FeatureCollection :=
  {| fc_asset := "FAO/GAUL/2015/level1"; fc_eq := ("ADM0_NAME", "China")%string |}.

(** One round of the loop over [zip(features_start, features_end)]; the
    state is the pair of the lists [data] and [percentage_changes]. *)
Definition loop_body (acc : list RegionRow * list float)
    (pair : Feature * Feature) : list RegionRow * list float :=
  let '(data, percentage_changes) := acc in
  let '(start_feature, end_feature) := pair in
  let state_name := ADM1_NAME start_feature in
  let start_mean_radiance := mean start_feature in
  let end_mean_radiance := mean end_feature in
  let percentage_change :=
    match start_mean_radiance, end_mean_radiance with
    | Some s, Some e =>
        if truthy start_mean_radiance && truthy end_mean_radiance
        then Some (((e - s) / s) * 100)%float
        else None
    | _, _ => None
    end in
  let data :=
    data ++ [ {| State := state_name;
                 Start_Mean_Radiance := start_mean_radiance;
                 End_Mean_Radiance := end_mean_radiance;
                 Percentage_Change := percentage_change |} ] in
  let percentage_changes :=
    match percentage_change with
    | Some pc => percentage_changes ++ [pc]
    | None => percentage_changes
    end in
  (data, percentage_changes).

Definition region_loop (features_start features_end : list Feature)
  : list RegionRow * list float :=
  fold_left loop_body (combine features_start features_end) ([], []).

Definition nightlights (year month : Z) : ImageCollection :=
  {| ic_asset := "NOAA/VIIRS/DNB/MONTHLY_V1/VCMCFG";
     ic_date := ((format_d year ++ "-" ++ format_02d month ++ "-01")%string,
                 (format_d year ++ "-" ++ format_02d month ++ "-28")%string);
     ic_band := "avg_rad" |}.

(** The collections of the start month and of the end month. *)
Definition nightlights_start (input : Input) : ImageCollection :=
  nightlights (start_year input) (start_month input).

Definition nightlights_end (input : Input) : ImageCollection :=
  nightlights (end_year input) (end_month input).

(** The body of [server]: the reactive calculation and the two renderers
    that read it. *)
Module server.

Definition fetch_data (input : Input) : prog fetched :=
  (size_start <- SizeGetInfo (nightlights_start input) Ret ;;
   empty <- (if size_start =? 0 then Ret true
             else size_end <- SizeGetInfo (nightlights_end input) Ret ;;
                  Ret (size_end =? 0)) ;;
   if (empty : bool) then Ret (Frame error_frame)
   else
     features_start <-
       ReduceRegionsGetInfo (nightlights_start input) china_states 1000 Ret ;;
     features_end <-
       ReduceRegionsGetInfo (nightlights_end input) china_states 1000 Ret ;;
     let '(data, percentage_changes) :=
       region_loop features_start features_end in
     hex_colors <- lift (create_colormap percentage_changes) ;;
     let Map := {| center := (35, 105)%float; zoom := 5 |} in
     Ret (FrameAndMap (DataFrame_of_records data) Map))%prog.

(** The status line. *)
Definition info (input : Input) : string :=
  ("Showing data for " ++ format_d (start_year input) ++ " - "
     ++ format_02d (start_month input) ++ " to "
     ++ format_d (end_year input) ++ " - "
     ++ format_02d (end_month input))%string.

(** [fetch_data] is a cached reactive calculation: both renderers read the
    outcome of the same run, here their argument. *)
Definition table (fetched_data : result fetched) : result pyobj :=
  (v <- fetched_data ;;
   '(data, _) <- unpack2 v ;;
   Ok data)%result.

Definition map (fetched_data : result fetched) : result pyobj :=
  (v <- fetched_data ;;
   '(_, Map) <- unpack2 v ;;
   Ok Map)%result.

End server.

(** ** Vocabulary of the specification *)

(** The regular expression [^#[0-9a-f]{6}$]. *)
Definition is_lower_hex (c : ascii) : bool :=
  let n := nat_of_ascii c in
  ((48 <=? n) && (n <=? 57) || (97 <=? n) && (n <=? 102))%nat.

Fixpoint all_chars (p : ascii -> bool) (s : string) : bool :=
  match s with
  | EmptyString => true
  | String c s' => p c && all_chars p s'
  end.

Definition matches_hex_color (s : string) : bool :=
  match s with
  | String "#" digits => (String.length digits =? 6)%nat && all_chars is_lower_hex digits
  | _ => false
  end.

(** The date format [YYYY-MM-DD], written digit by digit. *)
Definition digit_char (d : Z) : ascii :=
  ascii_of_nat (48 + Z.to_nat (d mod 10)).

Definition yyyy_mm_dd (y m d : Z) : string :=
  String (digit_char (y / 1000)) (String (digit_char (y / 100))
  (String (digit_char (y / 10)) (String (digit_char y)
  (String "-" (String (digit_char (m / 10)) (String (digit_char m)
  (String "-" (String (digit_char (d / 10)) (String (digit_char d)
  EmptyString))))))))).

(** The map widget of the success path. *)
Definition static_map : Map := {| center := (35, 105)%float; zoom := 5 |}.

(** The blue and red ends of the colour line the specification describes. *)
Definition blue : Z * Z * Z := (0, 0, 255).
Definition red : Z * Z * Z := (255, 0, 0).

(** ** Magnitudes of binary64 numbers

    [sf_below K x]: [x] is a zero or a finite number of absolute value
    below [2^K].  [sf_above L x]: [x] is a finite non-zero number whose
    exponent is at least [L]. *)
Definition sf_below (K : Z) (x : spec_float) : Prop :=
  match x with
  | S754_zero _ => True
  | S754_finite _ m e => Zpos (digits2_pos m) + e <= K
  | _ => False
  end.

Definition sf_above (L : Z) (x : spec_float) : Prop :=
  match x with
  | S754_finite _ m e => L <= e
  | _ => False
  end.

Definition below (K : Z) (x : float) : Prop := sf_below K (Prim2SF x).
Definition above (L : Z) (x : float) : Prop := sf_above L (Prim2SF x).

Definition vall (P : float -> Prop) (v : vec3) : Prop :=
  let '(a, b, c) := v in P a /\ P b /\ P c.

(** ** Fixtures: a service with images for January 2024 only *)

Definition january_2024 (c : ImageCollection) : bool :=
  String.eqb (fst (ic_date c)) "2024-01-01".

Definition two_regions (c : ImageCollection) : list Feature :=
  if january_2024 c
  then [ {| ADM1_NAME := "Anhui Sheng"; mean := Some 10%float |};
         {| ADM1_NAME := "Beijing Shi"; mean := Some 20%float |} ]
  else [ {| ADM1_NAME := "Anhui Sheng"; mean := Some 15%float |};
         {| ADM1_NAME := "Beijing Shi"; mean := Some 18%float |} ].

(** No image outside January 2024. *)
Definition ee_january_only : EarthEngine unit :=
  {| size_answer := fun c s => (Ok (if january_2024 c then 1 else 0), s);
     features_answer := fun c _ _ s => (Ok (two_regions c), s) |}.

(** One image for every month, two regions with means. *)
Definition ee_two_regions : EarthEngine unit :=
  {| size_answer := fun _ s => (Ok 1, s);
     features_answer := fun c _ _ s => (Ok (two_regions c), s) |}.

(** One image for every month, but no region carries a mean. *)
Definition ee_no_means : EarthEngine unit :=
  {| size_answer := fun _ s => (Ok 1, s);
     features_answer := fun _ _ _ s =>
       (Ok [ {| ADM1_NAME := "Anhui Sheng"; mean := None |};
             {| ADM1_NAME := "Beijing Shi"; mean := Some 0%float |} ], s) |}.

Definition jan_to_feb : Input :=
  {| start_year := 2024; start_month := 1; end_year := 2024; end_month := 2 |}.

(** Two answers for three regions; the second region has no end mean. *)
Definition three_regions_start : list Feature :=
  [ {| ADM1_NAME := "Anhui Sheng"; mean := Some 10%float |};
    {| ADM1_NAME := "Beijing Shi"; mean := Some 20%float |};
    {| ADM1_NAME := "Chongqing Shi"; mean := Some 4%float |} ].

Definition three_regions_end : list Feature :=
  [ {| ADM1_NAME := "Anhui Sheng"; mean := Some 15%float |};
    {| ADM1_NAME := "Beijing Shi"; mean := None |};
    {| ADM1_NAME := "Chongqing Shi"; mean := Some 5%float |} ].

(** ** Further vocabulary *)

(** Four and two decimal digits. *)
Definition digits4 (y : Z) : string :=
  String (digit_char (y / 1000)) (String (digit_char (y / 100))
  (String (digit_char (y / 10)) (String (digit_char y) EmptyString))).

Definition digits2 (m : Z) : string :=
  String (digit_char (m / 10)) (String (digit_char m) EmptyString).

(** The integers from [lo] to [lo + n - 1]. *)
Definition Zrange (lo n : Z) : list Z :=
  List.map (fun k => lo + Z.of_nat k) (seq 0 (Z.to_nat n)).

(** A finite binary64 number other than the zeros. *)
Definition finite_nonzero (x : float) : bool :=
  match Prim2SF x with
  | S754_finite _ _ _ => true
  | _ => false
  end.

(** The rows of a batch that carry a percentage change. *)
Definition rows_with_change (data : list RegionRow) : list RegionRow :=
  filter (fun row => match Percentage_Change row with
                     | Some _ => true
                     | None => false
                     end) data.

(** A service whose end-month region reduction fails. *)
Definition ee_end_reduction_fails : EarthEngine unit :=
  {| size_answer := fun _ s => (Ok 1, s);
     features_answer := fun c _ _ s =>
       (if january_2024 c then Ok (two_regions c)
        else Raise (EEException "Computation timed out."), s) |}.

(** A service with images for every month and no region at all. *)
Definition ee_no_regions : EarthEngine unit :=
  {| size_answer := fun _ s => (Ok 1, s);
     features_answer := fun _ _ _ s => (Ok [], s) |}.

(** * Properties *)

(** ** The loop over the paired features *)

Lemma loop_body_app (acc : list RegionRow * list float) (p : Feature * Feature) :
  loop_body acc p =
    (fst acc ++ fst (loop_body ([], []) p), snd acc ++ snd (loop_body ([], []) p)).
Proof.
  destruct acc as [data pcs], p as [sf ef]; unfold loop_body; cbn [fst snd].
  destruct (mean sf) as [s|], (mean ef) as [e|]; cbn [app];
    try (rewrite app_nil_r; reflexivity).
  destruct (truthy (Some s) && truthy (Some e)); cbn [app];
    try rewrite app_nil_r; reflexivity.
Qed.

Lemma fold_loop_body (ps : list (Feature * Feature)) :
  forall acc,
    fold_left loop_body ps acc =
      (fst acc ++ flat_map (fun p => fst (loop_body ([], []) p)) ps,
       snd acc ++ flat_map (fun p => snd (loop_body ([], []) p)) ps).
Proof.
  induction ps as [|p ps IH]; intros [data pcs]; cbn [fold_left flat_map fst snd].
  - now rewrite !app_nil_r.
  - rewrite IH, loop_body_app; cbn [fst snd]. now rewrite !app_assoc.
Qed.

Lemma region_loop_data (fs fe : list Feature) :
  fst (region_loop fs fe) =
    flat_map (fun p => fst (loop_body ([], []) p)) (combine fs fe).
Proof. unfold region_loop. now rewrite fold_loop_body. Qed.

Lemma region_loop_changes (fs fe : list Feature) :
  snd (region_loop fs fe) =
    flat_map (fun p => snd (loop_body ([], []) p)) (combine fs fe).
Proof. unfold region_loop. now rewrite fold_loop_body. Qed.

Lemma loop_body_one_row (p : Feature * Feature) :
  exists row, fst (loop_body ([], []) p) = [row].
Proof.
  destruct p as [sf ef]; unfold loop_body; cbn [fst app]. eauto.
Qed.

Lemma flat_map_singletons {A B : Type} (f : A -> list B) (g : A -> B) (l : list A) :
  (forall a, f a = [g a]) -> flat_map f l = map g l.
Proof.
  intros H; induction l as [|a l IH]; cbn; [reflexivity|].
  now rewrite H, IH.
Qed.

Lemma nth_error_combine {A B : Type} (l : list A) :
  forall (l' : list B) i a b,
    nth_error l i = Some a -> nth_error l' i = Some b ->
    nth_error (combine l l') i = Some (a, b).
Proof.
  induction l as [|x l IH]; intros l' [|i] a b Ha Hb;
    destruct l' as [|y l']; cbn in *; try discriminate.
  - congruence.
  - eauto.
Qed.

(** The row at a position is the one the loop body builds from the pair
    of features at that position. *)
Lemma region_loop_nth (fs fe : list Feature) (i : nat) (sf ef : Feature) :
  nth_error fs i = Some sf -> nth_error fe i = Some ef ->
  exists row,
    fst (loop_body ([], []) (sf, ef)) = [row] /\
    nth_error (fst (region_loop fs fe)) i = Some row.
Proof.
  intros Hs He.
  rewrite region_loop_data.
  set (g := fun p : Feature * Feature =>
              hd {| State := ""; Start_Mean_Radiance := None;
                    End_Mean_Radiance := None; Percentage_Change := None |}
                 (fst (loop_body ([], []) p))).
  rewrite (flat_map_singletons _ g).
  - exists (g (sf, ef)). split.
    + destruct (loop_body_one_row (sf, ef)) as [row Hrow].
      unfold g. now rewrite Hrow.
    + rewrite nth_error_map, (nth_error_combine _ _ _ _ _ Hs He). reflexivity.
  - intros p. destruct (loop_body_one_row p) as [row Hrow].
    unfold g. now rewrite Hrow.
Qed.

(** C1: for a pair of features whose start and end means are both present
    and truthy, the row emitted at their position carries the percentage
    change [(end - start) / start * 100], computed in binary64. *)
Theorem percentage_change_formula
    (fs fe : list Feature) (i : nat) (sf ef : Feature) (s e : float) :
  nth_error fs i = Some sf -> nth_error fe i = Some ef ->
  mean sf = Some s -> mean ef = Some e ->
  truthy (Some s) = true -> truthy (Some e) = true ->
  exists row,
    nth_error (fst (region_loop fs fe)) i = Some row /\
    Percentage_Change row = Some ((e - s) / s * 100)%float.
Proof.
  intros Hs He Ms Me Ts Te.
  destruct (region_loop_nth fs fe i sf ef Hs He) as [row [Hrow Hnth]].
  exists row; split; [exact Hnth|].
  unfold loop_body in Hrow; cbn [fst app] in Hrow.
  rewrite Ms, Me, Ts, Te in Hrow; cbn in Hrow.
  injection Hrow as <-. reflexivity.
Qed.

Lemma percentage_change_formula_witness :
  exists row,
    nth_error (fst (region_loop (two_regions (nightlights 2024 1))
                                (two_regions (nightlights 2024 2)))) 1 = Some row /\
    Percentage_Change row = Some ((18 - 20) / 20 * 100)%float.
Proof.
  apply (percentage_change_formula _ _ 1%nat
           {| ADM1_NAME := "Beijing Shi"; mean := Some 20%float |}
           {| ADM1_NAME := "Beijing Shi"; mean := Some 18%float |});
    reflexivity.
Defined.

(** C7: a pair of features one of whose means is absent, null or zero
    yields a row with its name and both means as received and with no
    percentage change; there is one row per pair, and every pair with two
    truthy means still gets its percentage change. *)
Theorem missing_mean_row
    (fs fe : list Feature) (i : nat) (sf ef : Feature) :
  nth_error fs i = Some sf -> nth_error fe i = Some ef ->
  truthy (mean sf) && truthy (mean ef) = false ->
  nth_error (fst (region_loop fs fe)) i =
    Some {| State := ADM1_NAME sf;
            Start_Mean_Radiance := mean sf;
            End_Mean_Radiance := mean ef;
            Percentage_Change := None |}
  /\ List.length (fst (region_loop fs fe)) = List.length (combine fs fe)
  /\ forall j sf' ef' s e,
       nth_error fs j = Some sf' -> nth_error fe j = Some ef' ->
       mean sf' = Some s -> mean ef' = Some e ->
       truthy (Some s) = true -> truthy (Some e) = true ->
       exists row,
         nth_error (fst (region_loop fs fe)) j = Some row /\
         State row = ADM1_NAME sf' /\
         Percentage_Change row = Some ((e - s) / s * 100)%float.
Proof.
  intros Hs He Hfalsy. repeat split.
  - destruct (region_loop_nth fs fe i sf ef Hs He) as [row [Hrow Hnth]].
    rewrite Hnth. f_equal.
    unfold loop_body in Hrow; cbn [fst app] in Hrow.
    injection Hrow as <-. f_equal.
    destruct (mean sf) as [s|], (mean ef) as [e|]; try reflexivity.
    now rewrite Hfalsy.
  - rewrite region_loop_data.
    induction (combine fs fe) as [|p ps IH]; cbn [flat_map]; [reflexivity|].
    rewrite length_app, IH.
    destruct (loop_body_one_row p) as [row ->]. reflexivity.
  - intros j sf' ef' s e Hs' He' Ms Me Ts Te.
    destruct (region_loop_nth fs fe j sf' ef' Hs' He') as [row [Hrow Hnth]].
    exists row; split; [exact Hnth|].
    unfold loop_body in Hrow; cbn [fst app] in Hrow.
    rewrite Ms, Me, Ts, Te in Hrow; cbn in Hrow.
    injection Hrow as <-. split; reflexivity.
Qed.

Lemma missing_mean_row_witness :
  nth_error (fst (region_loop three_regions_start three_regions_end)) 1 =
    Some {| State := "Beijing Shi";
            Start_Mean_Radiance := Some 20%float;
            End_Mean_Radiance := None;
            Percentage_Change := None |}
  /\ List.length (fst (region_loop three_regions_start three_regions_end)) = 3%nat
  /\ Percentage_Change
       (nth 2 (fst (region_loop three_regions_start three_regions_end))
            {| State := ""; Start_Mean_Radiance := None;
               End_Mean_Radiance := None; Percentage_Change := None |})
     = Some 25%float.
Proof.
  destruct (missing_mean_row three_regions_start three_regions_end 1
              {| ADM1_NAME := "Beijing Shi"; mean := Some 20%float |}
              {| ADM1_NAME := "Beijing Shi"; mean := None |}
              eq_refl eq_refl eq_refl) as (Hrow & Hlen & Hothers).
  split; [exact Hrow|]. split; [exact Hlen|].
  vm_compute. reflexivity.
Defined.

(** ** [create_colormap]: what does not need arithmetic *)

(** The colours for a given number of inputs. *)
Lemma create_colormap_by_length (xs : list float) :
  xs <> [] ->
  create_colormap xs =
    (vals <- mapM rgb_of_row
               (np_linspace (0, 0, 255)%float (1, 0, 0)%float (List.length xs)) ;;
     Ok (map hex_of_rgb vals))%result.
Proof.
  destruct xs as [|x xs]; [congruence|]; intros _.
  unfold create_colormap, py_min, py_max, np_interp; cbn [rbind fst snd].
  now rewrite length_map.
Qed.

Lemma create_colormap_empty : create_colormap [] = Raise ValueError.
Proof. reflexivity. Qed.

Lemma mapM_length {A B : Type} (f : A -> result B) (l : list A) :
  forall bs, mapM f l = Ok bs -> List.length bs = List.length l.
Proof.
  induction l as [|a l IH]; cbn [mapM]; intros bs H.
  - injection H as <-. reflexivity.
  - destruct (f a) as [b|]; cbn [rbind] in H; [|discriminate].
    destruct (mapM f l) as [bs'|]; cbn [rbind] in H; [|discriminate].
    injection H as <-. cbn. f_equal. now apply IH.
Qed.

Lemma mapM_total {A B : Type} (f : A -> result B) (l : list A) :
  Forall (fun a => exists b, f a = Ok b) l -> exists bs, mapM f l = Ok bs.
Proof.
  induction 1 as [|a l [b Hb] _ [bs Hbs]]; cbn [mapM].
  - eauto.
  - rewrite Hb, Hbs; cbn [rbind]. eauto.
Qed.

Lemma np_linspace_length (start stop : vec3) (num : nat) :
  List.length (np_linspace start stop num) = num.
Proof.
  unfold np_linspace.
  assert (Hshift : forall scaled : list vec3,
             List.length scaled = num ->
             List.length
               (if (1 <? num)%nat
                then set_last (map (fun v => vmap2 PrimFloat.add v start) scaled) stop
                else map (fun v => vmap2 PrimFloat.add v start) scaled) = num).
  { intros scaled Hlen.
    destruct (1 <? num)%nat; [|now rewrite length_map].
    unfold set_last.
    destruct (map _ scaled) as [|v l] eqn:E.
    - apply map_eq_nil in E. subst scaled. exact Hlen.
    - rewrite length_app, removelast_firstn_len, length_firstn, <- E, length_map, Hlen.
      cbn [List.length].
      assert (num <> 0)%nat; [|lia].
      intros ->. destruct scaled; discriminate. }
  apply Hshift.
  destruct (0 <? num - 1)%nat; [destruct (vany _ _)|];
    now rewrite !length_map, length_seq.
Qed.

(** The number of colours is the number of inputs, whenever colours are
    returned at all. *)
Lemma create_colormap_length (xs : list float) (cs : list string) :
  create_colormap xs = Ok cs -> List.length cs = List.length xs.
Proof.
  destruct xs as [|x xs]; [discriminate|].
  rewrite create_colormap_by_length by discriminate.
  destruct (mapM _ _) as [vals|] eqn:E; cbn [rbind]; [|discriminate].
  intros H; injection H as <-.
  rewrite length_map, (mapM_length _ _ _ E). apply np_linspace_length.
Qed.

(** ** Binary64 rounding keeps small numbers finite *)

Lemma fexp_eq (e : Z) : fexp prec emax e = Z.max (e - 53) (-1074).
Proof. reflexivity. Qed.

Lemma digits2_pos_size (p : positive) : digits2_pos p = Pos.size p.
Proof. induction p as [p IH|p IH|]; cbn; now rewrite ?IH. Qed.

Lemma Zdigits2_log2 (p : positive) : Zdigits2 (Zpos p) = Z.log2 (Zpos p) + 1.
Proof.
  cbn [Zdigits2]. rewrite digits2_pos_size.
  destruct p; cbn [Pos.size Z.log2]; lia.
Qed.

Lemma Zdigits2_nonneg (m : Z) : 0 <= Zdigits2 m.
Proof. destruct m; cbn; lia. Qed.

Lemma Zdigits2_upper (m : Z) : 0 <= m -> m < 2 ^ Zdigits2 m.
Proof.
  destruct m as [|p|p]; intros H; [cbn; lia| |lia].
  rewrite Zdigits2_log2. apply Z.log2_spec. lia.
Qed.

Lemma Zdigits2_lower (m : Z) : 0 < m -> 2 ^ (Zdigits2 m - 1) <= m.
Proof.
  destruct m as [|p|p]; intros H; try lia.
  rewrite Zdigits2_log2. replace (Z.log2 (Z.pos p) + 1 - 1) with (Z.log2 (Z.pos p)) by lia.
  apply Z.log2_spec. lia.
Qed.

Lemma Zdigits2_le (m k : Z) : 0 <= m -> 0 <= k -> m < 2 ^ k -> Zdigits2 m <= k.
Proof.
  destruct m as [|p|p]; intros H Hk Hm; [cbn; lia| |lia].
  rewrite Zdigits2_log2.
  apply Z.log2_lt_pow2 in Hm; lia.
Qed.

Lemma Zdigits2_pos (m : Z) : 0 < m -> 1 <= Zdigits2 m.
Proof. destruct m; cbn; lia. Qed.

Lemma shr_1_m (r : shr_record) :
  0 <= shr_m r -> shr_m (shr_1 r) = shr_m r / 2.
Proof.
  destruct r as [m b c]; cbn [shr_m]; intros H.
  destruct m as [|[p|p|]|p]; cbn [shr_1 shr_m]; try lia.
  all: first [ apply Z.div_unique with (r := 0); lia
             | apply Z.div_unique with (r := 1); lia ].
Qed.

Lemma iter_shr_1_m (p : positive) :
  forall r, 0 <= shr_m r ->
    shr_m (iter_pos shr_1 p r) = shr_m r / 2 ^ Zpos p.
Proof.
  induction p as [p IH|p IH|]; intros r H; cbn [iter_pos].
  - assert (H1 : 0 <= shr_m (shr_1 r)).
    { rewrite shr_1_m by trivial. apply Z.div_pos; lia. }
    assert (H2 : 0 <= shr_m (iter_pos shr_1 p (shr_1 r))).
    { rewrite IH by trivial. apply Z.div_pos; lia. }
    rewrite IH, IH, shr_1_m by trivial.
    rewrite !Z.div_div by lia. f_equal.
    replace (Z.pos p~1) with (1 + Z.pos p + Z.pos p) by lia.
    rewrite !Z.pow_add_r, Z.pow_1_r by lia. ring.
  - assert (H2 : 0 <= shr_m (iter_pos shr_1 p r)).
    { rewrite IH by trivial. apply Z.div_pos; lia. }
    rewrite IH, IH by trivial.
    rewrite !Z.div_div by lia. f_equal.
    replace (Z.pos p~0) with (Z.pos p + Z.pos p) by lia.
    rewrite Z.pow_add_r by lia. ring.
  - now rewrite shr_1_m.
Qed.

Lemma shr_spec (r : shr_record) (e n : Z) :
  0 <= shr_m r ->
  shr_m (fst (shr r e n)) = shr_m r / 2 ^ Z.max 0 n /\
  snd (shr r e n) = e + Z.max 0 n.
Proof.
  intros H. destruct n as [|p|p]; cbn [shr fst snd].
  - cbn. rewrite Z.div_1_r. lia.
  - rewrite iter_shr_1_m by trivial.
    replace (Z.max 0 (Z.pos p)) with (Z.pos p) by lia. auto.
  - replace (Z.max 0 (Z.neg p)) with 0 by lia. cbn. rewrite Z.div_1_r. lia.
Qed.

Lemma shr_record_of_loc_m (m : Z) (l : location) :
  shr_m (shr_record_of_loc m l) = m.
Proof. destruct l as [|[]]; reflexivity. Qed.

Lemma shr_fexp_spec (m e : Z) (l : location) :
  0 <= m ->
  let n := Z.max 0 (fexp prec emax (Zdigits2 m + e) - e) in
  shr_m (fst (shr_fexp prec emax m e l)) = m / 2 ^ n /\
  snd (shr_fexp prec emax m e l) = e + n.
Proof.
  intros H n. unfold shr_fexp.
  pose proof (shr_spec (shr_record_of_loc m l) e (fexp prec emax (Zdigits2 m + e) - e)) as S.
  rewrite shr_record_of_loc_m in S. now apply S.
Qed.

Lemma round_nearest_even_bounds (m : Z) (l : location) :
  m <= round_nearest_even m l <= m + 1.
Proof.
  destruct l as [|[]]; cbn [round_nearest_even]; try lia.
  destruct (Z.even m); lia.
Qed.

(** Dividing by a power of two takes that many digits away. *)
Lemma div_pow2_lt (m d n : Z) :
  0 <= m -> 0 <= n -> m < 2 ^ d -> m / 2 ^ n < 2 ^ Z.max 0 (d - n).
Proof.
  intros Hm Hn Hd.
  assert (Hp : 0 < 2 ^ n) by (apply Z.pow_pos_nonneg; lia).
  destruct (Z.le_gt_cases n d) as [Hle|Hgt].
  - replace (Z.max 0 (d - n)) with (d - n) by lia.
    apply Z.div_lt_upper_bound; [lia|].
    rewrite <- Z.pow_add_r by lia. now replace (n + (d - n)) with d by lia.
  - replace (Z.max 0 (d - n)) with 0 by lia.
    rewrite Z.div_small; [cbn; lia|]. split; [lia|].
    eapply Z.lt_le_trans; [exact Hd|].
    destruct (Z.le_gt_cases 0 d).
    + apply Z.pow_le_mono_r; lia.
    + rewrite Z.pow_neg_r in Hd; lia.
Qed.

Lemma div_pow2_pos (m n : Z) :
  0 < m -> 0 <= n -> n <= Zdigits2 m - 1 -> 0 < m / 2 ^ n.
Proof.
  intros Hm Hn Hd.
  apply Z.div_str_pos. split; [apply Z.pow_pos_nonneg; lia|].
  eapply Z.le_trans; [|apply Zdigits2_lower; trivial].
  apply Z.pow_le_mono_r; lia.
Qed.

(** The outcome of rounding, taken apart. *)
Lemma round_aux_cases (s : bool) (mx ex : Z) (lx : location) :
  0 <= mx ->
  exists m1 e1 m2 e2,
    e1 = ex + Z.max 0 (fexp prec emax (Zdigits2 mx + ex) - ex) /\
    mx / 2 ^ (e1 - ex) <= m1 <= mx / 2 ^ (e1 - ex) + 1 /\
    e2 = e1 + Z.max 0 (fexp prec emax (Zdigits2 m1 + e1) - e1) /\
    m2 = m1 / 2 ^ (e2 - e1) /\
    binary_round_aux prec emax s mx ex lx =
      match m2 with
      | Z0 => S754_zero s
      | Zpos m => if e2 <=? emax - prec then S754_finite s m e2
                  else S754_infinity s
      | Zneg _ => S754_nan
      end.
Proof.
  intros Hmx. unfold binary_round_aux.
  pose proof (shr_fexp_spec mx ex lx Hmx) as [Hm1 He1].
  destruct (shr_fexp prec emax mx ex lx) as [r1 e1]; cbn [fst snd] in *.
  set (m1 := round_nearest_even (shr_m r1) (loc_of_shr_record r1)).
  assert (Hb : shr_m r1 <= m1 <= shr_m r1 + 1)
    by apply round_nearest_even_bounds.
  assert (H0 : 0 <= shr_m r1).
  { rewrite Hm1. apply Z.div_pos; [lia|]. apply Z.pow_pos_nonneg; lia. }
  assert (Hm1' : 0 <= m1) by lia.
  pose proof (shr_fexp_spec m1 e1 loc_Exact Hm1') as [Hm2 He2].
  destruct (shr_fexp prec emax m1 e1 loc_Exact) as [r2 e2]; cbn [fst snd] in *.
  exists m1, e1, (shr_m r2), e2.
  replace (e1 - ex) with (Z.max 0 (fexp prec emax (Zdigits2 mx + ex) - ex)) by lia.
  replace (e2 - e1) with (Z.max 0 (fexp prec emax (Zdigits2 m1 + e1) - e1)) by lia.
  rewrite <- Hm1. repeat split; try lia; try assumption.
Qed.

Lemma round_aux_below (s : bool) (mx ex : Z) (lx : location) (K : Z) :
  0 <= mx -> Zdigits2 mx + ex <= K -> ex <= 971 -> -1074 <= K -> K <= 1023 ->
  sf_below (K + 1) (binary_round_aux prec emax s mx ex lx).
Proof.
  intros Hmx HK Hex HKlo HKhi.
  destruct (round_aux_cases s mx ex lx Hmx)
    as (m1 & e1 & m2 & e2 & He1 & Hm1 & He2 & Hm2 & ->).
  rewrite fexp_eq in He1, He2.
  pose proof (Zdigits2_nonneg mx) as Hd0.
  pose proof (Zdigits2_upper mx Hmx) as Hup.
  assert (Hn1 : 0 <= e1 - ex) by lia.
  pose proof (div_pow2_lt mx (Zdigits2 mx) (e1 - ex) Hmx Hn1 Hup) as Hq.
  assert (Hq0 : 0 <= mx / 2 ^ (e1 - ex)).
  { apply Z.div_pos; [lia|]. apply Z.pow_pos_nonneg; lia. }
  assert (Hm1lt : m1 < 2 ^ (Z.max 0 (Zdigits2 mx - (e1 - ex)) + 1)).
  { rewrite Z.pow_add_r, Z.pow_1_r by lia.
    assert (0 < 2 ^ Z.max 0 (Zdigits2 mx - (e1 - ex)))
      by (apply Z.pow_pos_nonneg; lia).
    lia. }
  assert (Hm1nn : 0 <= m1) by lia.
  assert (Hd1 : Zdigits2 m1 <= Z.max 0 (Zdigits2 mx - (e1 - ex)) + 1)
    by (apply Zdigits2_le; lia).
  pose proof (Zdigits2_nonneg m1) as Hd1'.
  assert (Hn2 : 0 <= e2 - e1) by lia.
  pose proof (Zdigits2_upper m1 Hm1nn) as Hup1.
  pose proof (div_pow2_lt m1 (Zdigits2 m1) (e2 - e1) Hm1nn Hn2 Hup1) as Hq2.
  rewrite <- Hm2 in Hq2.
  assert (Hm2nn : 0 <= m2).
  { rewrite Hm2. apply Z.div_pos; [lia|]. apply Z.pow_pos_nonneg; lia. }
  destruct m2 as [|p|p]; [exact I| |lia].
  assert (He2' : (e2 <=? emax - prec) = true).
  { apply Z.leb_le. change (emax - prec) with 971. lia. }
  rewrite He2'. cbn [sf_below].
  change (Z.pos (digits2_pos p)) with (Zdigits2 (Z.pos p)).
  assert (Hdp : Zdigits2 (Z.pos p) <= Z.max 0 (Zdigits2 m1 - (e2 - e1)))
    by (apply Zdigits2_le; lia).
  assert (1 <= Zdigits2 (Z.pos p)) by (apply Zdigits2_pos; lia).
  lia.
Qed.

Lemma round_aux_above (s : bool) (mx ex : Z) (lx : location) (K : Z) :
  0 < mx -> -1073 <= Zdigits2 mx + ex -> Zdigits2 mx + ex <= K ->
  ex <= 971 -> K <= 1023 ->
  sf_above ex (binary_round_aux prec emax s mx ex lx).
Proof.
  intros Hmx Hlo HK Hex HKhi.
  assert (Hmx0 : 0 <= mx) by lia.
  assert (HKlo : -1074 <= K) by lia.
  pose proof (round_aux_below s mx ex lx K Hmx0 HK Hex HKlo HKhi) as Hb.
  destruct (round_aux_cases s mx ex lx Hmx0)
    as (m1 & e1 & m2 & e2 & He1 & Hm1 & He2 & Hm2 & E).
  rewrite E in *. clear E.
  rewrite fexp_eq in He1, He2.
  pose proof (Zdigits2_pos mx Hmx) as Hd.
  assert (Hq : 0 < mx / 2 ^ (e1 - ex)) by (apply div_pow2_pos; lia).
  assert (Hm1pos : 0 < m1) by lia.
  pose proof (Zdigits2_pos m1 Hm1pos) as Hd1.
  assert (Hm2pos : 0 < m2) by (rewrite Hm2; apply div_pow2_pos; lia).
  destruct m2 as [|p|p]; try lia.
  destruct (e2 <=? emax - prec); cbn [sf_below sf_above] in *; [lia|contradiction].
Qed.

Lemma pos_iter_xO (m d : positive) :
  Zpos (Pos.iter xO m d) = Zpos m * 2 ^ Zpos d.
Proof.
  induction d as [|d IH] using Pos.peano_ind.
  - cbn [Pos.iter]. rewrite Z.pow_1_r. lia.
  - rewrite Pos.iter_succ, Pos2Z.inj_succ, Z.pow_succ_r by lia.
    rewrite Pos2Z.inj_xO, IH. ring.
Qed.

(** Aligning to a smaller exponent keeps the value. *)
Lemma shl_align_spec (m : positive) (e t : Z) :
  let e' := snd (shl_align m e t) in
  e' = Z.min e t /\ Zpos (fst (shl_align m e t)) = Zpos m * 2 ^ (e - e').
Proof.
  unfold shl_align. destruct (t - e) as [|d|d] eqn:E; cbn [fst snd].
  - split; [lia|]. rewrite Z.sub_diag. cbn. lia.
  - split; [lia|]. rewrite Z.sub_diag. cbn. lia.
  - split; [lia|]. rewrite pos_iter_xO. f_equal. f_equal. lia.
Qed.

Lemma binary_round_bounds (s : bool) (m : positive) (e K : Z) :
  Zdigits2 (Zpos m) + e <= K -> e <= 971 -> -1073 <= Zdigits2 (Zpos m) + e ->
  K <= 1023 ->
  sf_below (K + 1) (binary_round prec emax s m e) /\
  sf_above (Z.min e (Zdigits2 (Zpos m) + e - 53)) (binary_round prec emax s m e).
Proof.
  intros HK He Hlo HKhi. unfold binary_round.
  pose proof (shl_align_spec m e (fexp prec emax (Zpos (digits2_pos m) + e))) as [He' Hm'].
  destruct (shl_align m e _) as [mz ez]; cbn [fst snd] in *.
  change (Z.pos (digits2_pos m)) with (Zdigits2 (Z.pos m)) in He'.
  rewrite fexp_eq in He'.
  pose proof (Zdigits2_upper (Zpos m) (Pos2Z.is_nonneg m)) as Hup.
  pose proof (Zdigits2_pos (Zpos m) (Pos2Z.is_pos m)) as Hd.
  assert (Hmz : Zdigits2 (Zpos mz) + ez = Zdigits2 (Zpos m) + e).
  { rewrite !Zdigits2_log2, Hm', Z.log2_mul_pow2 by lia. lia. }
  split.
  - apply round_aux_below; lia.
  - assert (Habove : sf_above ez (binary_round_aux prec emax s (Zpos mz) ez loc_Exact))
      by (apply round_aux_above with (K := K); lia).
    destruct (binary_round_aux prec emax s (Zpos mz) ez loc_Exact);
      cbn [sf_above] in *; lia.
Qed.

Lemma Zdigits2_abs (z : Z) : Zdigits2 z = Zdigits2 (Z.abs z).
Proof. destruct z; reflexivity. Qed.

Lemma binary_normalize_below (z e K : Z) (sz : bool) :
  Zdigits2 z + e <= K -> e <= 971 -> -1074 <= e -> K <= 1023 ->
  sf_below (K + 1) (binary_normalize prec emax z e sz).
Proof.
  intros HK He Hlo HKhi.
  destruct z as [|m|m]; cbn [binary_normalize]; [exact I| |];
    apply binary_round_bounds; trivial;
    pose proof (Zdigits2_pos (Zpos m) (Pos2Z.is_pos m)); cbn [Zdigits2] in *; lia.
Qed.

(** *** The arithmetic operations *)

Lemma SFmul_below (x y : spec_float) (Kx Ky : Z) :
  sf_below Kx x -> sf_below Ky y -> Kx + Ky <= 973 ->
  sf_below (Z.max (Kx + Ky) (-1074) + 1) (SFmul prec emax x y).
Proof.
  intros Hx Hy HK.
  destruct x as [sx|sx| |sx mx ex], y as [sy|sy| |sy my ey];
    cbn [sf_below SFmul] in *; try contradiction; try exact I.
  pose proof (Zdigits2_upper (Zpos mx) (Pos2Z.is_nonneg mx)) as Hux.
  pose proof (Zdigits2_upper (Zpos my) (Pos2Z.is_nonneg my)) as Huy.
  pose proof (Zdigits2_pos (Zpos mx) (Pos2Z.is_pos mx)) as Hdx.
  pose proof (Zdigits2_pos (Zpos my) (Pos2Z.is_pos my)) as Hdy.
  cbn [Zdigits2] in *.
  assert (Hd : Zdigits2 (Zpos (mx * my)) <= Zpos (digits2_pos mx) + Zpos (digits2_pos my)).
  { apply Zdigits2_le; [lia|lia|].
    rewrite Pos2Z.inj_mul, Z.pow_add_r by lia.
    apply Z.mul_lt_mono_nonneg; lia. }
  apply round_aux_below; lia.
Qed.

Lemma SFdiv_below (x y : spec_float) (Kx Ly : Z) :
  sf_below Kx x -> sf_above Ly y -> Kx - Ly <= 1000 ->
  sf_below (Z.max (Kx - Ly) (-1074) + 1) (SFdiv prec emax x y).
Proof.
  intros Hx Hy HK.
  destruct x as [sx|sx| |sx mx ex], y as [sy|sy| |sy my ey];
    cbn [sf_below sf_above SFdiv] in *; try contradiction; try exact I.
  unfold SFdiv_core_binary.
  set (d1 := Zdigits2 (Zpos mx)). set (d2 := Zdigits2 (Zpos my)).
  set (e' := Z.min (fexp prec emax (d1 + ex - (d2 + ey))) (ex - ey)).
  set (sh := ex - ey - e').
  set (m' := match sh with
             | Z.pos _ => Z.shiftl (Zpos mx) sh
             | 0 => Zpos mx
             | Z.neg _ => 0
             end).
  assert (Hd1 : 1 <= d1) by (apply Zdigits2_pos; lia).
  assert (Hd2 : 1 <= d2) by (apply Zdigits2_pos; lia).
  assert (Hd1' : d1 + ex <= Kx) by (unfold d1; cbn [Zdigits2]; lia).
  assert (He' : e' <= ex - ey) by (unfold e'; lia).
  assert (He'' : e' <= Z.max (d1 + ex - (d2 + ey) - 53) (-1074))
    by (unfold e'; rewrite fexp_eq; lia).
  assert (Hsh : 0 <= sh) by (unfold sh; lia).
  assert (Hm' : m' = Zpos mx * 2 ^ sh).
  { unfold m'. destruct sh as [|p|p];
      [ rewrite Z.pow_0_r; lia
      | now rewrite Z.shiftl_mul_pow2 by lia
      | lia ]. }
  clearbody m'.
  assert (Hdiv : Z.div_eucl m' (Zpos my) = (m' / Zpos my, m' mod Zpos my)).
  { unfold Z.div, Z.modulo. now destruct (Z.div_eucl m' (Zpos my)). }
  rewrite Hdiv.
  set (q := m' / Zpos my).
  assert (Hpow : 0 < 2 ^ sh) by (apply Z.pow_pos_nonneg; lia).
  assert (Hm'0 : 0 <= m') by (rewrite Hm'; lia).
  assert (Hq0 : 0 <= q) by (apply Z.div_pos; lia).
  pose proof (Zdigits2_upper (Zpos mx) (Pos2Z.is_nonneg mx)) as Hux. fold d1 in Hux.
  pose proof (Zdigits2_lower (Zpos my) (Pos2Z.is_pos my)) as Hly. fold d2 in Hly.
  assert (Hm'lt : m' < 2 ^ (d1 + sh)).
  { rewrite Hm', Z.pow_add_r by lia. apply Z.mul_lt_mono_pos_r; lia. }
  assert (Hq : q < 2 ^ Z.max 0 (d1 + sh - d2 + 1)).
  { destruct (Z.le_gt_cases 0 (d1 + sh - d2 + 1)) as [Hge|Hlt].
    - replace (Z.max 0 (d1 + sh - d2 + 1)) with (d1 + sh - (d2 - 1)) by lia.
      apply Z.div_lt_upper_bound; [lia|].
      eapply Z.lt_le_trans; [exact Hm'lt|].
      replace (d1 + sh) with ((d2 - 1) + (d1 + sh - (d2 - 1))) at 1 by lia.
      rewrite Z.pow_add_r by lia.
      apply Z.mul_le_mono_nonneg_r; [|lia].
      apply Z.pow_nonneg; lia.
    - replace (Z.max 0 (d1 + sh - d2 + 1)) with 0 by lia.
      unfold q. rewrite Z.div_small; [cbn; lia|]. split; [lia|].
      eapply Z.lt_le_trans; [exact Hm'lt|].
      eapply Z.le_trans; [|exact Hly].
      apply Z.pow_le_mono_r; lia. }
  assert (Hdq : Zdigits2 q <= Z.max 0 (d1 + sh - d2 + 1))
    by (apply Zdigits2_le; lia).
  apply round_aux_below; unfold sh in *; lia.
Qed.

Lemma SFadd_below (x y : spec_float) (K : Z) :
  sf_below K x -> sf_below K y -> K <= 970 ->
  (forall s m e, x = S754_finite s m e -> -1074 <= e) ->
  (forall s m e, y = S754_finite s m e -> -1074 <= e) ->
  sf_below (K + 2) (SFadd prec emax x y).
Proof.
  intros Hx Hy HK Hex Hey.
  destruct x as [sx|sx| |sx mx ex], y as [sy|sy| |sy my ey];
    cbn [sf_below SFadd] in *; try contradiction; try exact I; try lia.
  - destruct sx, sy; exact I.
  - specialize (Hex _ _ _ eq_refl). specialize (Hey _ _ _ eq_refl).
    set (ez := Z.min ex ey).
    pose proof (shl_align_spec mx ex ez) as [Ex Mx].
    pose proof (shl_align_spec my ey ez) as [Ey My].
    cbn zeta in *.
    set (a := Zpos (fst (shl_align mx ex ez))) in *.
    set (b := Zpos (fst (shl_align my ey ez))) in *.
    rewrite Ex in Mx. rewrite Ey in My.
    replace (Z.min ex ez) with ez in Mx by lia.
    replace (Z.min ey ez) with ez in My by lia.
    pose proof (Zdigits2_upper (Zpos mx) (Pos2Z.is_nonneg mx)) as Hux.
    pose proof (Zdigits2_upper (Zpos my) (Pos2Z.is_nonneg my)) as Huy.
    pose proof (Zdigits2_pos (Zpos mx) (Pos2Z.is_pos mx)) as Hdx.
    pose proof (Zdigits2_pos (Zpos my) (Pos2Z.is_pos my)) as Hdy.
    cbn [Zdigits2] in *.
    assert (Ha : a < 2 ^ (K - ez)).
    { rewrite Mx.
      eapply Z.lt_le_trans;
        [apply Z.mul_lt_mono_pos_r; [apply Z.pow_pos_nonneg; lia|exact Hux]|].
      rewrite <- Z.pow_add_r by lia. apply Z.pow_le_mono_r; lia. }
    assert (Hb : b < 2 ^ (K - ez)).
    { rewrite My.
      eapply Z.lt_le_trans;
        [apply Z.mul_lt_mono_pos_r; [apply Z.pow_pos_nonneg; lia|exact Huy]|].
      rewrite <- Z.pow_add_r by lia. apply Z.pow_le_mono_r; lia. }
    assert (Ha0 : 0 < a) by (unfold a; lia).
    assert (Hb0 : 0 < b) by (unfold b; lia).
    set (z := cond_Zopp sx a + cond_Zopp sy b).
    assert (Hz : Z.abs z < 2 ^ (K - ez + 1)).
    { rewrite Z.pow_add_r, Z.pow_1_r by lia.
      unfold z. destruct sx, sy; cbn [cond_Zopp]; lia. }
    assert (Hdz : Zdigits2 z <= K - ez + 1).
    { rewrite Zdigits2_abs. apply Zdigits2_le; lia. }
    assert (Hez : ez <= ex /\ -1074 <= ez) by (unfold ez; lia).
    replace (K + 2) with (K + 1 + 1) by lia.
    apply binary_normalize_below; lia.
Qed.

(** ** Primitive floats *)

Lemma below_mono (K K' : Z) (x : float) : K <= K' -> below K x -> below K' x.
Proof.
  unfold below. destruct (Prim2SF x); cbn [sf_below]; trivial; lia.
Qed.

Lemma Prim2SF_exponent (x : float) (s : bool) (m : positive) (e : Z) :
  Prim2SF x = S754_finite s m e -> -1074 <= e.
Proof.
  intros H. pose proof (Prim2SF_valid x) as V. rewrite H in V.
  cbn [valid_binary] in V. unfold bounded, canonical_mantissa in V.
  apply andb_prop in V as [V _]. apply Z.eqb_eq in V.
  rewrite fexp_eq in V. lia.
Qed.

Lemma below_mul (x y : float) (Kx Ky : Z) :
  below Kx x -> below Ky y -> Kx + Ky <= 973 ->
  below (Z.max (Kx + Ky) (-1074) + 1) (x * y)%float.
Proof. unfold below. rewrite mul_spec. apply SFmul_below. Qed.

Lemma below_div (x y : float) (Kx Ly : Z) :
  below Kx x -> above Ly y -> Kx - Ly <= 1000 ->
  below (Z.max (Kx - Ly) (-1074) + 1) (x / y)%float.
Proof. unfold below, above. rewrite div_spec. apply SFdiv_below. Qed.

Lemma below_add (x y : float) (K : Z) :
  below K x -> below K y -> K <= 970 -> below (K + 2) (x + y)%float.
Proof.
  unfold below. rewrite add_spec. intros Hx Hy HK.
  apply SFadd_below; trivial; intros s m e; apply Prim2SF_exponent.
Qed.

Lemma float_of_nat_spec (n : nat) :
  Z.of_nat n < 2 ^ 63 ->
  Prim2SF (float_of_nat n) = binary_normalize prec emax (Z.of_nat n) 0 false.
Proof.
  intros H. unfold float_of_nat. rewrite of_uint63_spec, Uint63.of_Z_spec.
  rewrite Z.mod_small; [reflexivity|]. split; [lia|exact H].
Qed.

Lemma float_of_nat_below (n : nat) :
  Z.of_nat n < 2 ^ 63 -> below 64 (float_of_nat n).
Proof.
  intros H. unfold below. rewrite float_of_nat_spec by exact H.
  change 64 with (63 + 1). apply binary_normalize_below; try lia.
  rewrite Z.add_0_r. apply Zdigits2_le; lia.
Qed.

Lemma float_of_nat_above (n : nat) :
  (0 < n)%nat -> Z.of_nat n < 2 ^ 63 -> above (-52) (float_of_nat n).
Proof.
  intros Hn H. unfold above. rewrite float_of_nat_spec by exact H.
  destruct (Z.of_nat n) as [|m|m] eqn:E; try lia.
  cbn [binary_normalize].
  assert (Hd : Zdigits2 (Zpos m) <= 63) by (apply Zdigits2_le; lia).
  pose proof (Zdigits2_pos (Zpos m) (Pos2Z.is_pos m)) as Hd1.
  destruct (binary_round_bounds false m 0 63) as [_ Ha]; try lia.
  destruct (binary_round prec emax false m 0); cbn [sf_above] in *; lia.
Qed.

Lemma py_int_total (x : float) (K : Z) : below K x -> exists z, py_int x = Ok z.
Proof.
  unfold below, py_int. destruct (Prim2SF x); cbn [sf_below]; try contradiction; eauto.
Qed.

(** ** Every row of the colour line converts to integers *)

Lemma rgb_of_row_total (c : vec3) :
  vall (below 128) c -> exists rgb, rgb_of_row c = Ok rgb.
Proof.
  destruct c as [[c0 c1] c2]; intros (H0 & H1 & H2). unfold rgb_of_row.
  assert (H255 : below 8 255%float) by (vm_compute; discriminate).
  assert (Hsum : 128 + 8 <= 973) by lia.
  destruct (py_int_total (c0 * 255)%float _ (below_mul _ _ _ _ H0 H255 Hsum)) as [r ->].
  destruct (py_int_total (c1 * 255)%float _ (below_mul _ _ _ _ H1 H255 Hsum)) as [g ->].
  destruct (py_int_total (c2 * 255)%float _ (below_mul _ _ _ _ H2 H255 Hsum)) as [b ->].
  cbn [rbind]. eauto.
Qed.

Section ColourLine.

Variable num : nat.
Hypothesis num_pos : (1 <= num)%nat.
Hypothesis num_small : Z.of_nat num <= 2 ^ 63.

Lemma small_constant (d : float) :
  In d [0; 1; 255; -255]%float -> below 8 d.
Proof.
  cbn [In]. intros [<-|[<-|[<-|[<-|[]]]]]; vm_compute; trivial; discriminate.
Qed.

(** One channel, whichever of the three scalings produced it. *)
Lemma channel_divide_first (t dv d s : float) :
  below 64 t -> above (-52) dv -> below 8 d -> below 8 s ->
  below 128 ((t / dv) * d + s)%float.
Proof.
  intros Ht Hdv Hd Hs.
  assert (H1 : below 117 (t / dv)%float)
    by (apply (below_div t dv 64 (-52)); trivial; lia).
  assert (H2 : below 126 (t / dv * d)%float)
    by (apply (below_mul _ d 117 8); trivial; lia).
  apply (below_add _ _ 126); trivial; [|lia].
  apply (below_mono 8); trivial; lia.
Qed.

Lemma channel_step (t dv d s : float) :
  below 64 t -> above (-52) dv -> below 8 d -> below 8 s ->
  below 128 (t * (d / dv) + s)%float.
Proof.
  intros Ht Hdv Hd Hs.
  assert (H1 : below 61 (d / dv)%float)
    by (apply (below_div d dv 8 (-52)); trivial; lia).
  assert (H2 : below 126 (t * (d / dv))%float)
    by (apply (below_mul t _ 64 61); trivial; lia).
  apply (below_add _ _ 126); trivial; [|lia].
  apply (below_mono 8); trivial; lia.
Qed.

Lemma channel_single (t d s : float) :
  below 64 t -> below 8 d -> below 8 s -> below 128 (t * d + s)%float.
Proof.
  intros Ht Hd Hs.
  assert (H2 : below 73 (t * d)%float)
    by (apply (below_mul t d 64 8); trivial; lia).
  apply (below_add _ _ 126); [| |lia]; eapply below_mono; eauto; lia.
Qed.

Lemma Forall_removelast {A : Type} (P : A -> Prop) (l : list A) :
  Forall P l -> Forall P (removelast l).
Proof.
  induction 1 as [|x l Hx Hl IH]; cbn [removelast]; [constructor|].
  destruct l; [constructor|]. now constructor.
Qed.

Lemma Forall_set_last {A : Type} (P : A -> Prop) (l : list A) (a : A) :
  Forall P l -> P a -> Forall P (set_last l a).
Proof.
  intros Hl Ha. unfold set_last. destruct l as [|x l]; [constructor|].
  apply Forall_app. split; [|now constructor].
  now apply Forall_removelast.
Qed.

Lemma np_linspace_rows_small :
  Forall (vall (below 128)) (np_linspace (0, 0, 255)%float (1, 0, 0)%float num).
Proof.
  unfold np_linspace.
  change (vmap2 PrimFloat.sub (1, 0, 0)%float (0, 0, 255)%float)
    with ((1, 0, -255)%float : vec3).
  assert (Hidx : forall i, In i (seq 0 num) -> below 64 (float_of_nat i)).
  { intros i Hi. apply in_seq in Hi. apply float_of_nat_below. lia. }
  assert (Hrows : forall f : float -> vec3,
             (forall t, below 64 t ->
                vall (below 128) (vmap2 PrimFloat.add (f t) (0, 0, 255)%float)) ->
             Forall (vall (below 128))
               (map (fun v => vmap2 PrimFloat.add v (0, 0, 255)%float)
                    (map f (map float_of_nat (seq 0 num))))).
  { intros f Hf. rewrite !map_map. apply Forall_forall.
    intros v Hv. apply in_map_iff in Hv as (i & <- & Hi). auto. }
  assert (Hstop : vall (below 128) (1, 0, 0)%float)
    by (repeat split; vm_compute; trivial; discriminate).
  assert (Hall : Forall (vall (below 128))
            (map (fun v => vmap2 PrimFloat.add v (0, 0, 255)%float)
               (if (0 <? num - 1)%nat
                then
                  if vany (fun s => (s =? 0)%float)
                       (vmap (fun d => (d / float_of_nat (num - 1))%float)
                          (1, 0, -255)%float)
                  then map (fun t => vmap (fun d => (t / float_of_nat (num - 1) * d)%float)
                                       (1, 0, -255)%float)
                           (map float_of_nat (seq 0 num))
                  else map (fun t => vmap (fun s => (t * s)%float)
                                       (vmap (fun d => (d / float_of_nat (num - 1))%float)
                                             (1, 0, -255)%float))
                           (map float_of_nat (seq 0 num))
                else map (fun t => vmap (fun d => (t * d)%float) (1, 0, -255)%float)
                         (map float_of_nat (seq 0 num))))).
  { destruct (Nat.ltb_spec 0 (num - 1)) as [Hdiv|Hdiv].
    - assert (Hdv : above (-52) (float_of_nat (num - 1)))
        by (apply float_of_nat_above; lia).
      destruct (vany _ _).
      + apply Hrows. intros t Ht. cbn [vmap vmap2 vall].
        repeat split; apply channel_divide_first; trivial;
          apply small_constant; cbn [In]; auto.
      + apply Hrows. intros t Ht. cbn [vmap vmap2 vall].
        repeat split; apply channel_step; trivial;
          apply small_constant; cbn [In]; auto.
    - apply Hrows. intros t Ht. cbn [vmap vmap2 vall].
      repeat split; apply channel_single; trivial;
        apply small_constant; cbn [In]; auto. }
  destruct (1 <? num)%nat; [apply Forall_set_last|]; assumption.
Qed.

Lemma colormap_values_total :
  exists vals,
    mapM rgb_of_row (np_linspace (0, 0, 255)%float (1, 0, 0)%float num) = Ok vals /\
    List.length vals = num.
Proof.
  destruct (mapM_total rgb_of_row
              (np_linspace (0, 0, 255)%float (1, 0, 0)%float num))
    as [vals Hvals].
  - eapply Forall_impl; [|exact np_linspace_rows_small].
    intros c. apply rgb_of_row_total.
  - exists vals. split; [exact Hvals|].
    rewrite (mapM_length _ _ _ Hvals). apply np_linspace_length.
Qed.

End ColourLine.

(** ** [create_colormap] on every non-empty input *)

(** A non-empty input of at most [2^63] values gets one colour per
    value. *)
Lemma create_colormap_total (xs : list float) :
  xs <> [] -> Z.of_nat (List.length xs) <= 2 ^ 63 ->
  exists cs, create_colormap xs = Ok cs /\ List.length cs = List.length xs.
Proof.
  intros Hne Hlen.
  rewrite create_colormap_by_length by exact Hne.
  assert (Hpos : (1 <= List.length xs)%nat)
    by (destruct xs; [congruence|cbn; lia]).
  destruct (colormap_values_total (List.length xs) Hpos Hlen) as (vals & Hvals & Hn).
  rewrite Hvals; cbn [rbind].
  exists (map hex_of_rgb vals). split; [reflexivity|].
  now rewrite length_map.
Qed.

(** The colours are as many as the values. *)
Theorem one_color_per_value (xs : list float) :
  xs <> [] -> Z.of_nat (List.length xs) <= 2 ^ 63 ->
  exists cs, create_colormap xs = Ok cs /\ List.length cs = List.length xs.
Proof. exact (create_colormap_total xs). Qed.

Lemma one_color_per_value_witness :
  exists cs,
    create_colormap [1; 2; 3; 4; 5]%float = Ok cs /\ List.length cs = 5%nat.
Proof.
  apply (one_color_per_value [1; 2; 3; 4; 5]%float).
  - discriminate.
  - vm_compute. discriminate.
Defined.

(** C5: two non-empty inputs of the same length get the same list of
    colours, whatever their values. *)
Theorem create_colormap_ignores_values (xs ys : list float) :
  xs <> [] -> List.length xs = List.length ys ->
  Z.of_nat (List.length xs) <= 2 ^ 63 ->
  exists cs, create_colormap xs = Ok cs /\ create_colormap ys = Ok cs.
Proof.
  intros Hxs Hlen Hsmall.
  assert (Hys : ys <> []) by (destruct xs, ys; congruence || discriminate).
  destruct (create_colormap_total xs Hxs Hsmall) as (cs & Hcs & _).
  exists cs. split; [exact Hcs|].
  rewrite <- Hcs, !create_colormap_by_length by assumption.
  now rewrite Hlen.
Qed.

Lemma create_colormap_ignores_values_witness :
  exists cs,
    create_colormap [50; -10]%float = Ok cs /\
    create_colormap [0; 1000]%float = Ok cs.
Proof.
  apply (create_colormap_ignores_values [50; -10]%float [0; 1000]%float).
  - discriminate.
  - reflexivity.
  - vm_compute. discriminate.
Defined.

Lemma py_min_equal (x : float) (xs : list float) :
  xs <> [] -> Forall (fun y => y = x) xs -> py_min xs = Ok x.
Proof.
  destruct xs as [|y t]; [congruence|]. intros _ H.
  apply Forall_cons_iff in H as [-> Ht]. cbn [py_min]. f_equal.
  induction Ht as [|z t Hz _ IH]; cbn [fold_left]; [reflexivity|].
  subst z. now destruct (x <? x)%float.
Qed.

Lemma py_max_equal (x : float) (xs : list float) :
  xs <> [] -> Forall (fun y => y = x) xs -> py_max xs = Ok x.
Proof.
  destruct xs as [|y t]; [congruence|]. intros _ H.
  apply Forall_cons_iff in H as [-> Ht]. cbn [py_max]. f_equal.
  induction Ht as [|z t Hz _ IH]; cbn [fold_left]; [reflexivity|].
  subst z. now destruct (x <? x)%float.
Qed.

(** C6: on a non-empty input whose values are all the same, the minimum
    and the maximum of the normalisation coincide, and [create_colormap]
    still returns a list of colours, one per value. *)
Theorem equal_values_do_not_crash (x : float) (xs : list float) :
  xs <> [] -> Forall (fun y => y = x) xs ->
  Z.of_nat (List.length xs) <= 2 ^ 63 ->
  py_min xs = Ok x /\ py_max xs = Ok x /\
  exists cs, create_colormap xs = Ok cs /\ List.length cs = List.length xs.
Proof.
  intros Hne Heq Hlen.
  split; [now apply py_min_equal|].
  split; [now apply py_max_equal|].
  now apply create_colormap_total.
Qed.

Lemma equal_values_do_not_crash_witness :
  py_min [50; 50; 50]%float = Ok 50%float /\
  py_max [50; 50; 50]%float = Ok 50%float /\
  exists cs,
    create_colormap [50; 50; 50]%float = Ok cs /\ List.length cs = 3%nat.
Proof.
  apply (equal_values_do_not_crash 50%float [50; 50; 50]%float).
  - discriminate.
  - repeat constructor.
  - vm_compute. discriminate.
Defined.

(** ** The first colour of every colour list *)

Lemma zero_of_either_sign (x : float) (b : bool) :
  Prim2SF x = S754_zero b -> x = 0%float \/ x = (-0)%float.
Proof.
  intros H. rewrite <- (SF2Prim_Prim2SF x), H. destruct b; cbn; auto.
Qed.

Lemma zero_div (dv : float) (L : Z) :
  above L dv -> (0 / dv = 0 \/ 0 / dv = -0)%float.
Proof.
  unfold above. intros H.
  destruct (Prim2SF dv) as [| | |s m e] eqn:E; try contradiction.
  apply (zero_of_either_sign _ (xorb false s)).
  rewrite div_spec, E. reflexivity.
Qed.

Lemma zero_mul (y : float) (K : Z) :
  below K y -> (0 * y = 0 \/ 0 * y = -0)%float.
Proof.
  unfold below. intros H.
  destruct (Prim2SF y) as [s| | |s m e] eqn:E; try contradiction.
  - apply (zero_of_either_sign _ (xorb false s)). rewrite mul_spec, E. reflexivity.
  - apply (zero_of_either_sign _ (xorb false s)). rewrite mul_spec, E. reflexivity.
Qed.

Lemma first_row_from_zero (z0 z1 z2 : float) :
  (z0 = 0 \/ z0 = -0)%float -> (z1 = 0 \/ z1 = -0)%float ->
  (z2 = 0 \/ z2 = -0)%float ->
  rgb_of_row (vmap2 PrimFloat.add (z0, z1, z2) (0, 0, 255)%float)
    = Ok (0, 0, 65025).
Proof.
  intros [-> | ->] [-> | ->] [-> | ->]; vm_compute; reflexivity.
Qed.

Lemma set_last_cons {A : Type} (a b : A) (l : list A) :
  l <> [] -> set_last (a :: l) b = a :: set_last l b.
Proof. destruct l; [congruence|reflexivity]. Qed.

Lemma np_linspace_first_row (num : nat) :
  (1 <= num)%nat -> Z.of_nat num <= 2 ^ 63 ->
  exists r0 rest,
    np_linspace (0, 0, 255)%float (1, 0, 0)%float num = r0 :: rest /\
    rgb_of_row r0 = Ok (0, 0, 65025).
Proof.
  intros Hpos Hsmall. destruct num as [|[|n]]; [lia| |].
  - exists (0, 0, 255)%float, []. split; vm_compute; reflexivity.
  - unfold np_linspace.
    change (vmap2 PrimFloat.sub (1, 0, 0)%float (0, 0, 255)%float)
      with ((1, 0, -255)%float : vec3).
    change (1 <? S (S n))%nat with true.
    change (0 <? S (S n) - 1)%nat with true.
    change (seq 0 (S (S n))) with (0 :: 1 :: seq 2 n)%nat.
    set (dv := float_of_nat (S (S n) - 1)).
    assert (Hdv : above (-52) dv) by (apply float_of_nat_above; lia).
    destruct (vany _ _); cbn [map]; rewrite set_last_cons by discriminate;
      eexists; eexists; (split; [reflexivity|]); cbn [vmap];
      change (float_of_nat 0) with 0%float.
    + destruct (zero_div dv _ Hdv) as [-> | ->];
        apply first_row_from_zero; vm_compute; auto.
    + apply first_row_from_zero; apply (zero_mul _ 61);
        apply (below_div _ dv 8 (-52)); trivial; try lia;
        vm_compute; trivial; discriminate.
Qed.

(** Whatever the non-empty input, the first colour is that of
    (0, 0, 65025): nine characters, not a [#rrggbb] colour. *)
Lemma first_color_of_every_list (xs : list float) :
  xs <> [] -> Z.of_nat (List.length xs) <= 2 ^ 63 ->
  exists rest, create_colormap xs = Ok ("#0000fe01"%string :: rest).
Proof.
  intros Hne Hlen.
  assert (Hpos : (1 <= List.length xs)%nat)
    by (destruct xs; [congruence|cbn; lia]).
  destruct (create_colormap_total xs Hne Hlen) as (cs & Hcs & _).
  rewrite Hcs. rewrite create_colormap_by_length in Hcs by exact Hne.
  destruct (np_linspace_first_row _ Hpos Hlen) as (r0 & rest & Hrows & Hr0).
  rewrite Hrows in Hcs. cbn [mapM] in Hcs. rewrite Hr0 in Hcs. cbn [rbind] in Hcs.
  destruct (mapM rgb_of_row rest) as [vals|]; cbn [rbind] in Hcs; [|discriminate].
  injection Hcs as <-. cbn [map]. eexists. reflexivity.
Qed.

(** ** [fetch_data] against an arbitrary service *)

Section FetchData.

Context {S : Type} (ee : EarthEngine S).

Variable input : Input.

(** The early return: an empty start month, or an empty end month after
    a non-empty start month. *)
Lemma fetch_data_empty_start (s s1 : S) :
  size_answer ee (nightlights_start input) s = (Ok 0, s1) ->
  run ee (server.fetch_data input) s =
    (Ok (Frame error_frame), [ReqSize (nightlights_start input)]).
Proof.
  intros H. unfold server.fetch_data; cbn [pbind run]. rewrite H.
  reflexivity.
Qed.

Lemma fetch_data_empty_end (s s1 s2 : S) (n : Z) :
  size_answer ee (nightlights_start input) s = (Ok n, s1) -> n <> 0 ->
  size_answer ee (nightlights_end input) s1 = (Ok 0, s2) ->
  run ee (server.fetch_data input) s =
    (Ok (Frame error_frame),
     [ReqSize (nightlights_start input); ReqSize (nightlights_end input)]).
Proof.
  intros H Hn H'. unfold server.fetch_data; cbn [pbind run]. rewrite H.
  destruct (Z.eqb_spec n 0) as [|_]; [contradiction|].
  cbn [pbind run]. rewrite H'. reflexivity.
Qed.

(** Past the two size checks and the two region reductions, the outcome
    is decided by the loop and the colour map. *)
Lemma fetch_data_features (s s1 s2 s3 s4 : S) (n1 n2 : Z) (fs fe : list Feature) :
  size_answer ee (nightlights_start input) s = (Ok n1, s1) -> n1 <> 0 ->
  size_answer ee (nightlights_end input) s1 = (Ok n2, s2) -> n2 <> 0 ->
  features_answer ee (nightlights_start input) china_states 1000 s2
    = (Ok fs, s3) ->
  features_answer ee (nightlights_end input) china_states 1000 s3
    = (Ok fe, s4) ->
  fst (run ee (server.fetch_data input) s) =
    (_ <- create_colormap (snd (region_loop fs fe)) ;;
     Ok (FrameAndMap (DataFrame_of_records (fst (region_loop fs fe)))
                     static_map))%result.
Proof.
  intros H1 Hn1 H2 Hn2 H3 H4.
  unfold server.fetch_data; cbn [pbind run]. rewrite H1.
  destruct (Z.eqb_spec n1 0) as [|_]; [contradiction|].
  cbn [pbind run]. rewrite H2.
  destruct (Z.eqb_spec n2 0) as [|_]; [contradiction|].
  cbn [pbind run]. rewrite H3. cbn [pbind run]. rewrite H4.
  destruct (region_loop fs fe) as [data pcs]; cbn [fst snd].
  destruct (create_colormap pcs) as [cs|e]; reflexivity.
Qed.

(** As soon as one row has a percentage change, the table of all rows
    and the map are returned. *)
Lemma fetch_data_some_change (s s1 s2 s3 s4 : S) (n1 n2 : Z) (fs fe : list Feature) :
  size_answer ee (nightlights_start input) s = (Ok n1, s1) -> n1 <> 0 ->
  size_answer ee (nightlights_end input) s1 = (Ok n2, s2) -> n2 <> 0 ->
  features_answer ee (nightlights_start input) china_states 1000 s2
    = (Ok fs, s3) ->
  features_answer ee (nightlights_end input) china_states 1000 s3
    = (Ok fe, s4) ->
  snd (region_loop fs fe) <> [] ->
  Z.of_nat (List.length (snd (region_loop fs fe))) <= 2 ^ 63 ->
  fst (run ee (server.fetch_data input) s) =
    Ok (FrameAndMap (DataFrame_of_records (fst (region_loop fs fe))) static_map).
Proof.
  intros H1 Hn1 H2 Hn2 H3 H4 Hne Hlen.
  rewrite (fetch_data_features s s1 s2 s3 s4 n1 n2 fs fe H1 Hn1 H2 Hn2 H3 H4).
  destruct (create_colormap_total _ Hne Hlen) as (cs & -> & _). reflexivity.
Qed.

(** Every way a tuple can come out of [fetch_data]. *)
Lemma fetch_data_success (s : S) (df : DataFrame) (m : Map) :
  fst (run ee (server.fetch_data input) s) = Ok (FrameAndMap df m) ->
  exists s2 s3 s4 fs fe cs,
    features_answer ee (nightlights_start input) china_states 1000 s2
      = (Ok fs, s3) /\
    features_answer ee (nightlights_end input) china_states 1000 s3
      = (Ok fe, s4) /\
    create_colormap (snd (region_loop fs fe)) = Ok cs /\
    df = DataFrame_of_records (fst (region_loop fs fe)) /\
    m = static_map.
Proof.
  unfold server.fetch_data; cbn [pbind run].
  destruct (size_answer ee (nightlights_start input) s) as [[n1|e1] s1];
    [|discriminate].
  destruct (n1 =? 0); cbn [pbind run]; [discriminate|].
  destruct (size_answer ee (nightlights_end input) s1) as [[n2|e2] s2];
    [|discriminate].
  destruct (n2 =? 0); cbn [pbind run]; [discriminate|].
  destruct (features_answer ee (nightlights_start input) china_states 1000 s2)
    as [[fs|e3] s3] eqn:H3; [|discriminate].
  cbn [pbind run].
  destruct (features_answer ee (nightlights_end input) china_states 1000 s3)
    as [[fe|e4] s4] eqn:H4; [|discriminate].
  destruct (region_loop fs fe) as [data pcs] eqn:Hloop.
  destruct (create_colormap pcs) as [cs|e] eqn:Hcs; cbn; [|discriminate].
  intros H; injection H as <- <-.
  exists s2, s3, s4, fs, fe, cs. rewrite Hloop; cbn [fst snd]. auto.
Qed.

(** The requests are sent in a fixed order; the run may stop early. *)
Lemma fetch_data_requests (s : S) :
  exists k, (1 <= k)%nat /\
    snd (run ee (server.fetch_data input) s) =
      firstn k [ ReqSize (nightlights_start input); ReqSize (nightlights_end input);
                 ReqReduceRegions (nightlights_start input) china_states 1000;
                 ReqReduceRegions (nightlights_end input) china_states 1000 ].
Proof.
  unfold server.fetch_data; cbn [pbind run].
  destruct (size_answer ee (nightlights_start input) s) as [[n1|e1] s1];
    [|exists 1%nat; split; [lia|reflexivity]].
  destruct (n1 =? 0); cbn [pbind run];
    [exists 1%nat; split; [lia|reflexivity]|].
  destruct (size_answer ee (nightlights_end input) s1) as [[n2|e2] s2];
    [|exists 2%nat; split; [lia|reflexivity]].
  destruct (n2 =? 0); cbn [pbind run];
    [exists 2%nat; split; [lia|reflexivity]|].
  destruct (features_answer ee (nightlights_start input) china_states 1000 s2)
    as [[fs|e3] s3]; [|exists 3%nat; split; [lia|reflexivity]].
  cbn [pbind run].
  destruct (features_answer ee (nightlights_end input) china_states 1000 s3)
    as [[fe|e4] s4]; [|exists 4%nat; split; [lia|reflexivity]].
  destruct (region_loop fs fe) as [data pcs].
  destruct (create_colormap pcs) as [cs|e]; cbn;
    exists 4%nat; split; (lia || reflexivity).
Qed.

End FetchData.

Lemma fetch_data_some_change_witness :
  fst (run ee_two_regions (server.fetch_data jan_to_feb) tt) =
    Ok (FrameAndMap
          (DataFrame_of_records
             (fst (region_loop (two_regions (nightlights 2024 1))
                               (two_regions (nightlights 2024 2)))))
          static_map).
Proof.
  apply (fetch_data_some_change ee_two_regions jan_to_feb tt tt tt tt tt 1 1);
    try reflexivity; discriminate.
Defined.

Lemma nightlights_dates (y m : Z) :
  In y year_choices -> In m month_choices ->
  ic_date (nightlights y m) = (yyyy_mm_dd y m 1, yyyy_mm_dd y m 28).
Proof.
  unfold year_choices, month_choices; cbn [In]; intros Hy Hm.
  repeat (destruct Hy as [<-|Hy]; [|]); try contradiction;
    repeat (destruct Hm as [<-|Hm]; [|]); try contradiction;
    vm_compute; reflexivity.
Qed.

(** C8: for selections offered by the form, both monthly collections are
    filtered from [YYYY-MM-01] to [YYYY-MM-28] of the selected year and
    month, and the service only ever receives requests about these two
    collections, the start month's size query first. *)
Theorem query_dates_fixed_days
    (S : Type) (ee : EarthEngine S) (s : S) (input : Input) :
  In (start_year input) year_choices -> In (start_month input) month_choices ->
  In (end_year input) year_choices -> In (end_month input) month_choices ->
  let qs := nightlights_start input in
  let qe := nightlights_end input in
  ic_date qs = (yyyy_mm_dd (start_year input) (start_month input) 1,
                yyyy_mm_dd (start_year input) (start_month input) 28) /\
  ic_date qe = (yyyy_mm_dd (end_year input) (end_month input) 1,
                yyyy_mm_dd (end_year input) (end_month input) 28) /\
  exists k, (1 <= k)%nat /\
    snd (run ee (server.fetch_data input) s) =
      firstn k [ ReqSize qs; ReqSize qe;
                 ReqReduceRegions qs china_states 1000;
                 ReqReduceRegions qe china_states 1000 ].
Proof.
  intros Hsy Hsm Hey Hem qs qe.
  split; [now apply nightlights_dates|].
  split; [now apply nightlights_dates|].
  apply fetch_data_requests.
Qed.

Lemma query_dates_fixed_days_witness :
  ic_date (nightlights 2024 1) = ("2024-01-01", "2024-01-28")%string /\
  ic_date (nightlights 2024 2) = ("2024-02-01", "2024-02-28")%string /\
  exists k, (1 <= k)%nat /\
    snd (run ee_two_regions (server.fetch_data jan_to_feb) tt) =
      firstn k [ ReqSize (nightlights 2024 1); ReqSize (nightlights 2024 2);
                 ReqReduceRegions (nightlights 2024 1) china_states 1000;
                 ReqReduceRegions (nightlights 2024 2) china_states 1000 ].
Proof.
  apply (query_dates_fixed_days unit ee_two_regions tt jan_to_feb);
    vm_compute; tauto.
Defined.

(** C9: whenever [fetch_data] returns a table and a map, the map is the
    widget centred at (35.0, 105.0) with zoom 5, whatever was selected and
    fetched, and the table is made of the rows of the loop alone: the
    colours appear in neither. *)
Theorem map_is_static
    (S : Type) (ee : EarthEngine S) (s : S) (input : Input)
    (df : DataFrame) (m : Map) :
  fst (run ee (server.fetch_data input) s) = Ok (FrameAndMap df m) ->
  m = {| center := (35, 105)%float; zoom := 5 |} /\
  exists s2 s3 s4 fs fe,
    features_answer ee (nightlights_start input)
      china_states 1000 s2 = (Ok fs, s3) /\
    features_answer ee (nightlights_end input)
      china_states 1000 s3 = (Ok fe, s4) /\
    df = DataFrame_of_records (fst (region_loop fs fe)).
Proof.
  intros H.
  destruct (fetch_data_success ee input s df m H)
    as (s2 & s3 & s4 & fs & fe & cs & Hs & He & _ & Hdf & Hm).
  split; [exact Hm|]. exists s2, s3, s4, fs, fe. auto.
Qed.

Lemma map_is_static_witness :
  static_map = {| center := (35, 105)%float; zoom := 5 |} /\
  exists s2 s3 s4 fs fe,
    features_answer ee_two_regions (nightlights 2024 1) china_states 1000 s2
      = (Ok fs, s3) /\
    features_answer ee_two_regions (nightlights 2024 2) china_states 1000 s3
      = (Ok fe, s4) /\
    DataFrame_of_records
      (fst (region_loop (two_regions (nightlights 2024 1))
                        (two_regions (nightlights 2024 2))))
      = DataFrame_of_records (fst (region_loop fs fe)).
Proof.
  apply (map_is_static unit ee_two_regions tt jan_to_feb
           (DataFrame_of_records
              (fst (region_loop (two_regions (nightlights 2024 1))
                                (two_regions (nightlights 2024 2)))))
           static_map).
  vm_compute. reflexivity.
Defined.

Lemma changes_of_rows (fs fe : list Feature) :
  snd (region_loop fs fe) =
    flat_map (fun row => match Percentage_Change row with
                         | Some pc => [pc]
                         | None => []
                         end) (fst (region_loop fs fe)).
Proof.
  rewrite region_loop_data, region_loop_changes.
  induction (combine fs fe) as [|[sf ef] ps IH]; cbn [flat_map]; [reflexivity|].
  rewrite flat_map_app, IH. f_equal.
  unfold loop_body; cbn [fst snd app flat_map Percentage_Change].
  destruct (mean sf), (mean ef); try reflexivity.
  destruct (truthy _ && truthy _); reflexivity.
Qed.

(** C10: when both months have images and no row of the batch has a
    percentage change, [create_colormap] is still called, with the empty
    list, raises [ValueError] there, and [fetch_data] raises with it. *)
Theorem no_change_anywhere_raises
    (S : Type) (ee : EarthEngine S) (input : Input)
    (s s1 s2 s3 s4 : S) (n1 n2 : Z) (fs fe : list Feature) :
  let qs := nightlights_start input in
  let qe := nightlights_end input in
  size_answer ee qs s = (Ok n1, s1) -> n1 <> 0 ->
  size_answer ee qe s1 = (Ok n2, s2) -> n2 <> 0 ->
  features_answer ee qs china_states 1000 s2 = (Ok fs, s3) ->
  features_answer ee qe china_states 1000 s3 = (Ok fe, s4) ->
  fst (region_loop fs fe) <> [] ->
  Forall (fun row => Percentage_Change row = None) (fst (region_loop fs fe)) ->
  snd (region_loop fs fe) = [] /\
  create_colormap [] = Raise ValueError /\
  fst (run ee (server.fetch_data input) s) = Raise ValueError.
Proof.
  intros qs qe H1 Hn1 H2 Hn2 H3 H4 _ Hnone.
  assert (E : snd (region_loop fs fe) = []).
  { rewrite changes_of_rows.
    induction Hnone as [|row rows Hrow _ IH]; cbn [flat_map]; [reflexivity|].
    now rewrite Hrow, IH. }
  split; [exact E|]. split; [reflexivity|].
  rewrite (fetch_data_features ee input s s1 s2 s3 s4 n1 n2 fs fe H1 Hn1 H2 Hn2 H3 H4).
  rewrite E. reflexivity.
Qed.

Lemma no_change_anywhere_raises_witness :
  fst (run ee_no_means (server.fetch_data jan_to_feb) tt) = Raise ValueError.
Proof.
  refine (proj2 (proj2 (no_change_anywhere_raises unit ee_no_means jan_to_feb
            tt tt tt tt tt 1 1 _ _ eq_refl _ eq_refl _ eq_refl eq_refl _ _)));
    try discriminate.
  repeat constructor.
Defined.

(** The scenario of the specification: start means 10.0 and 20.0, end
    means 15.0 and 18.0 give the changes 50.0 and -10.0, in a table of two
    rows beside the map. *)
Example two_regions_scenario :
  fst (run ee_two_regions (server.fetch_data jan_to_feb) tt) =
    Ok (FrameAndMap
          {| columns := [ "State"; "Start Mean Radiance"; "End Mean Radiance";
                          "Percentage Change" ]%string;
             rows := [ [ CellStr "Anhui Sheng"; CellFloat 10; CellFloat 15;
                         CellFloat 50 ];
                       [ CellStr "Beijing Shi"; CellFloat 20; CellFloat 18;
                         CellFloat (-10) ] ] |}
          static_map).
Proof. vm_compute. reflexivity. Qed.

(** C2 (the code departs from it): when the start month has no image,
    or the end month has none after a start month with some,
    [fetch_data] returns the bare error table without building a map,
    and both renderers raise [ValueError] when they take it apart as a
    pair. *)
Theorem empty_month_breaks_renderers
    (S : Type) (ee : EarthEngine S) (input : Input) (s : S) :
  (exists s1,
     size_answer ee (nightlights_start input) s
       = (Ok 0, s1)) \/
  (exists n s1 s2,
     size_answer ee (nightlights_start input) s
       = (Ok n, s1) /\ n <> 0 /\
     size_answer ee (nightlights_end input) s1
       = (Ok 0, s2)) ->
  let out := fst (run ee (server.fetch_data input) s) in
  out = Ok (Frame error_frame) /\
  server.table out = Raise ValueError /\
  server.map out = Raise ValueError.
Proof.
  intros H out.
  assert (E : out = Ok (Frame error_frame)).
  { unfold out. destruct H as [[s1 H]|(n & s1 & s2 & H & Hn & H')].
    - now rewrite (fetch_data_empty_start ee input s s1 H).
    - now rewrite (fetch_data_empty_end ee input s s1 s2 n H Hn H'). }
  rewrite E. repeat split.
Qed.

Lemma empty_month_breaks_renderers_witness :
  let out := fst (run ee_january_only (server.fetch_data jan_to_feb) tt) in
  out = Ok (Frame error_frame) /\
  server.table out = Raise ValueError /\
  server.map out = Raise ValueError.
Proof.
  apply (empty_month_breaks_renderers unit ee_january_only jan_to_feb tt).
  right. exists 1, tt, tt. repeat split. discriminate.
Defined.

(** C3 (the code departs from it): whatever the non-empty input, the
    first colour returned does not match [^#[0-9a-f]{6}$]: it is the
    nine-character string of (0, 0, 65025). *)
Theorem first_color_not_six_digits (xs : list float) :
  xs <> [] -> Z.of_nat (List.length xs) <= 2 ^ 63 ->
  exists c rest,
    create_colormap xs = Ok (c :: rest) /\
    c = hex_of_rgb (0, 0, 65025) /\
    matches_hex_color c = false.
Proof.
  intros Hne Hlen.
  destruct (first_color_of_every_list xs Hne Hlen) as [rest H].
  exists "#0000fe01"%string, rest. repeat split. exact H.
Qed.

Lemma first_color_not_six_digits_witness :
  exists c rest,
    create_colormap [50; -10]%float = Ok (c :: rest) /\
    c = hex_of_rgb (0, 0, 65025) /\
    matches_hex_color c = false.
Proof.
  apply (first_color_not_six_digits [50; -10]%float).
  - discriminate.
  - vm_compute. discriminate.
Defined.

(** C4 (the code departs from it): a single input gets the colour of
    (0, 0, 65025), not of the blue end (0, 0, 255) of the line; five
    inputs get blue components far above 255 at every point but the last,
    which is the red end. *)
Theorem blue_end_scaled_twice :
  create_colormap [7]%float = Ok [ hex_of_rgb (0, 0, 65025) ] /\
  hex_of_rgb (0, 0, 65025) <> hex_of_rgb blue /\
  create_colormap [1; 2; 3; 4; 5]%float =
    Ok (map hex_of_rgb
          [ (0, 0, 65025); (63, 0, 48768); (127, 0, 32512); (191, 0, 16256); red ]).
Proof.
  split; [vm_compute; reflexivity|].
  split; [vm_compute; discriminate|].
  vm_compute; reflexivity.
Qed.

(** * Further properties *)

(** ** The loop, continued *)

(** [zip] stops at the shorter list: features without a partner are
    dropped, without any notice. *)
Theorem rows_stop_at_shorter_list (fs fe : list Feature) :
  List.length (fst (region_loop fs fe))
    = Nat.min (List.length fs) (List.length fe)
  /\ forall i, (Nat.min (List.length fs) (List.length fe) <= i)%nat ->
       nth_error (fst (region_loop fs fe)) i = None.
Proof.
  assert (E : List.length (fst (region_loop fs fe))
              = Nat.min (List.length fs) (List.length fe)).
  { rewrite <- length_combine, region_loop_data.
    induction (combine fs fe) as [|p ps IH]; cbn [flat_map]; [reflexivity|].
    rewrite length_app, IH.
    destruct (loop_body_one_row p) as [row ->]. reflexivity. }
  split; [exact E|].
  intros i Hi. apply nth_error_None. lia.
Qed.

Lemma loop_body_reads_end_mean (acc : list RegionRow * list float)
    (sf ef ef' : Feature) :
  mean ef = mean ef' -> loop_body acc (sf, ef) = loop_body acc (sf, ef').
Proof. intros H. unfold loop_body. now rewrite H. Qed.

(** The pairing is by position alone: of an end feature only the mean is
    read, never the name, so end features with other names (or in another
    order than the start features) are paired all the same. *)
Theorem end_names_never_read (fs fe fe' : list Feature) :
  List.map mean fe = List.map mean fe' ->
  region_loop fs fe = region_loop fs fe'.
Proof.
  unfold region_loop. generalize (@nil RegionRow, @nil float).
  revert fe fe'.
  induction fs as [|f fs IH]; intros [|e fe] [|e' fe'] acc H; cbn in *;
    try reflexivity; try discriminate.
  injection H as H0 H.
  rewrite (loop_body_reads_end_mean acc f e e' H0). now apply IH.
Qed.

Lemma end_names_never_read_witness :
  region_loop three_regions_start three_regions_end =
  region_loop three_regions_start
    [ {| ADM1_NAME := "Chongqing Shi"; mean := Some 15%float |};
      {| ADM1_NAME := "Anhui Sheng"; mean := None |};
      {| ADM1_NAME := "Beijing Shi"; mean := Some 5%float |} ].
Proof.
  apply (end_names_never_read three_regions_start three_regions_end).
  reflexivity.
Defined.

Lemma rows_with_change_changes (fs fe : list Feature) :
  List.map Percentage_Change (rows_with_change (fst (region_loop fs fe)))
    = List.map Some (snd (region_loop fs fe)).
Proof.
  rewrite changes_of_rows. unfold rows_with_change.
  induction (fst (region_loop fs fe)) as [|row rows IH];
    cbn [filter flat_map List.map]; [reflexivity|].
  destruct (Percentage_Change row) as [pc|] eqn:E;
    cbn [List.map app]; [rewrite E, IH|]; trivial.
Qed.

(** The percentage changes handed to [create_colormap] are those of the
    rows that have one, in the order of the rows: they are fewer than the
    rows as soon as one row has none. *)
Theorem changes_follow_rows (fs fe : list Feature) :
  List.map Percentage_Change (rows_with_change (fst (region_loop fs fe)))
    = List.map Some (snd (region_loop fs fe))
  /\ (List.length (snd (region_loop fs fe))
        <= List.length (fst (region_loop fs fe)))%nat.
Proof.
  split; [apply rows_with_change_changes|].
  rewrite <- (length_map Some), <- rows_with_change_changes, length_map.
  unfold rows_with_change. apply filter_length_le.
Qed.

(** ** Unchanged radiance *)

Lemma sub_self (s : float) :
  finite_nonzero s = true -> (s - s)%float = 0%float.
Proof.
  unfold finite_nonzero. intros H.
  destruct (Prim2SF s) as [| | |b m e] eqn:E; try discriminate.
  rewrite <- (SF2Prim_Prim2SF (s - s)), sub_spec, E.
  unfold SF64sub, SFsub. rewrite Z.sub_diag. reflexivity.
Qed.

Lemma finite_nonzero_truthy (s : float) :
  finite_nonzero s = true -> truthy (Some s) = true.
Proof.
  unfold finite_nonzero, truthy. intros H.
  destruct (Prim2SF s) as [| | |b m e] eqn:E; try discriminate.
  rewrite eqb_spec, E. change (Prim2SF 0) with (S754_zero false).
  unfold SFeqb, SFcompare. now destruct b.
Qed.

(** A region whose mean radiance is the same finite non-zero number in
    both months gets a percentage change of zero (of either sign). *)
Theorem unchanged_mean_gives_zero
    (fs fe : list Feature) (i : nat) (sf ef : Feature) (s : float) :
  nth_error fs i = Some sf -> nth_error fe i = Some ef ->
  mean sf = Some s -> mean ef = Some s -> finite_nonzero s = true ->
  exists row pc,
    nth_error (fst (region_loop fs fe)) i = Some row /\
    Percentage_Change row = Some pc /\
    (pc = 0 \/ pc = -0)%float.
Proof.
  intros Hs He Ms Me Hfin.
  destruct (region_loop_nth fs fe i sf ef Hs He) as [row [Hrow Hnth]].
  pose proof (finite_nonzero_truthy s Hfin) as Ht.
  unfold loop_body in Hrow; cbn [fst app] in Hrow.
  rewrite Ms, Me, Ht in Hrow; cbn [andb] in Hrow.
  injection Hrow as <-.
  eexists. exists ((s - s) / s * 100)%float.
  split; [exact Hnth|]. split; [reflexivity|].
  rewrite (sub_self s Hfin).
  assert (Hs' : above (-1074) s).
  { unfold above. unfold finite_nonzero in Hfin.
    destruct (Prim2SF s) as [| | |b m e] eqn:E; try discriminate.
    cbn [sf_above]. exact (Prim2SF_exponent s b m e E). }
  destruct (zero_div s _ Hs') as [-> | ->]; vm_compute; auto.
Qed.

Lemma unchanged_mean_gives_zero_witness :
  exists row pc,
    nth_error (fst (region_loop (two_regions (nightlights 2024 1))
                                (two_regions (nightlights 2024 1)))) 1
      = Some row /\
    Percentage_Change row = Some pc /\
    (pc = 0 \/ pc = -0)%float.
Proof.
  apply (unchanged_mean_gives_zero _ _ 1%nat
           {| ADM1_NAME := "Beijing Shi"; mean := Some 20%float |}
           {| ADM1_NAME := "Beijing Shi"; mean := Some 20%float |} 20%float);
    reflexivity.
Defined.

(** ** The colour list, continued *)

Lemma mapM_app {A B : Type} (f : A -> result B) (l l' : list A) :
  mapM f (l ++ l') =
    (bs <- mapM f l ;; bs' <- mapM f l' ;; Ok (bs ++ bs'))%result.
Proof.
  induction l as [|a l IH]; cbn [mapM app rbind].
  - destruct (mapM f l'); reflexivity.
  - destruct (f a) as [b|]; cbn [rbind]; [|reflexivity].
    rewrite IH. destruct (mapM f l) as [bs|]; cbn [rbind]; [|reflexivity].
    destruct (mapM f l') as [bs'|]; reflexivity.
Qed.

Lemma np_linspace_last_row (start stop : vec3) (num : nat) :
  (2 <= num)%nat ->
  exists init, np_linspace start stop num = init ++ [stop].
Proof.
  intros H. unfold np_linspace.
  destruct (Nat.ltb_spec 1 num) as [_|]; [|lia].
  set (shifted := List.map _ _).
  assert (Hlen : List.length shifted = num).
  { unfold shifted. destruct (0 <? num - 1)%nat; [destruct (vany _ _)|];
      now rewrite !length_map, length_seq. }
  unfold set_last. destruct shifted as [|v l]; [cbn in Hlen; lia|]. eauto.
Qed.

(** With two values or more, the last colour is pure red. *)
Theorem last_color_is_red (xs : list float) :
  (2 <= List.length xs)%nat -> Z.of_nat (List.length xs) <= 2 ^ 63 ->
  exists init, create_colormap xs = Ok (init ++ [ hex_of_rgb red ]).
Proof.
  intros Hlen Hsmall.
  assert (Hne : xs <> []) by (destruct xs; [cbn in Hlen; lia|discriminate]).
  destruct (create_colormap_total xs Hne Hsmall) as (cs & Hcs & _).
  rewrite Hcs. rewrite create_colormap_by_length in Hcs by exact Hne.
  destruct (np_linspace_last_row (0, 0, 255)%float (1, 0, 0)%float _ Hlen)
    as [init Hrows].
  rewrite Hrows, mapM_app in Hcs.
  destruct (mapM rgb_of_row init) as [vals|]; cbn [rbind] in Hcs; [|discriminate].
  change (mapM rgb_of_row [(1, 0, 0)%float]) with (Ok [red]) in Hcs.
  cbn [rbind] in Hcs. injection Hcs as <-.
  exists (List.map hex_of_rgb vals). now rewrite map_app.
Qed.

Lemma last_color_is_red_witness :
  exists init,
    create_colormap [50; -10; 3]%float = Ok (init ++ [ "#ff0000"%string ]).
Proof.
  apply (last_color_is_red [50; -10; 3]%float).
  - cbn. lia.
  - vm_compute. discriminate.
Defined.

(** As many colours as rows with a percentage change: when a row has
    none, the colour list is shorter than the table. *)
Theorem one_color_per_change (fs fe : list Feature) (cs : list string) :
  create_colormap (snd (region_loop fs fe)) = Ok cs ->
  List.length cs = List.length (rows_with_change (fst (region_loop fs fe))).
Proof.
  intros H. rewrite (create_colormap_length _ _ H).
  rewrite <- (length_map Some), <- rows_with_change_changes. apply length_map.
Qed.

Lemma one_color_per_change_witness :
  List.length [ "#0000fe01"; "#ff0000" ]%string =
  List.length
    (rows_with_change (fst (region_loop three_regions_start three_regions_end))).
Proof.
  apply (one_color_per_change three_regions_start three_regions_end).
  vm_compute. reflexivity.
Defined.

Lemma mul_by_zero (x z : float) (K : Z) :
  below K x -> (z = 0 \/ z = -0)%float -> (x * z = 0 \/ x * z = -0)%float.
Proof.
  unfold below. intros H Hz.
  assert (Ez : exists b, Prim2SF z = S754_zero b)
    by (destruct Hz as [-> | ->]; eexists; reflexivity).
  destruct Ez as [bz Ez].
  destruct (Prim2SF x) as [s| | |s m e] eqn:E; try contradiction;
    apply (zero_of_either_sign _ (xorb s bz)); rewrite mul_spec, E, Ez;
    reflexivity.
Qed.

Lemma add_zero_to_zero (z : float) :
  (z = 0 \/ z = -0)%float -> (z + 0 = 0)%float.
Proof. intros [-> | ->]; reflexivity. Qed.

Lemma np_linspace_green (num : nat) :
  (1 <= num)%nat -> Z.of_nat num <= 2 ^ 63 ->
  Forall (fun c : vec3 => snd (fst c) = 0%float)
    (np_linspace (0, 0, 255)%float (1, 0, 0)%float num).
Proof.
  intros Hpos Hsmall. unfold np_linspace.
  change (vmap2 PrimFloat.sub (1, 0, 0)%float (0, 0, 255)%float)
    with ((1, 0, -255)%float : vec3).
  assert (Hrows : forall f : float -> vec3,
             (forall t, below 64 t ->
                (snd (fst (f t)) = 0 \/ snd (fst (f t)) = -0)%float) ->
             Forall (fun c : vec3 => snd (fst c) = 0%float)
               (List.map (fun v => vmap2 PrimFloat.add v (0, 0, 255)%float)
                  (List.map f (List.map float_of_nat (seq 0 num))))).
  { intros f Hf. rewrite !map_map. apply Forall_forall.
    intros v Hv. apply in_map_iff in Hv as (i & <- & Hi).
    apply in_seq in Hi.
    assert (Hi' : below 64 (float_of_nat i)) by (apply float_of_nat_below; lia).
    specialize (Hf _ Hi'). destruct (f (float_of_nat i)) as [[a g] b].
    cbn [vmap2 fst snd] in *. now apply add_zero_to_zero. }
  assert (Hall : Forall (fun c : vec3 => snd (fst c) = 0%float)
            (List.map (fun v => vmap2 PrimFloat.add v (0, 0, 255)%float)
               (if (0 <? num - 1)%nat
                then
                  if vany (fun s => (s =? 0)%float)
                       (vmap (fun d => (d / float_of_nat (num - 1))%float)
                          (1, 0, -255)%float)
                  then List.map
                         (fun t => vmap (fun d => (t / float_of_nat (num - 1) * d)%float)
                                     (1, 0, -255)%float)
                         (List.map float_of_nat (seq 0 num))
                  else List.map
                         (fun t => vmap (fun s => (t * s)%float)
                                     (vmap (fun d => (d / float_of_nat (num - 1))%float)
                                        (1, 0, -255)%float))
                         (List.map float_of_nat (seq 0 num))
                else List.map (fun t => vmap (fun d => (t * d)%float) (1, 0, -255)%float)
                       (List.map float_of_nat (seq 0 num))))).
  { destruct (Nat.ltb_spec 0 (num - 1)) as [Hdiv|Hdiv].
    - assert (Hdv : above (-52) (float_of_nat (num - 1)))
        by (apply float_of_nat_above; lia).
      destruct (vany _ _); apply Hrows; intros t Ht; cbn [vmap fst snd].
      + apply (mul_by_zero _ _ 117); [|auto].
        apply (below_div t _ 64 (-52)); trivial; lia.
      + apply (mul_by_zero _ _ 64); [exact Ht|].
        exact (zero_div _ _ Hdv).
    - apply Hrows; intros t Ht; cbn [vmap fst snd].
      apply (mul_by_zero _ _ 64); auto. }
  destruct (1 <? num)%nat; [apply Forall_set_last|]; trivial.
Qed.

Lemma mapM_Forall {A B : Type} (f : A -> result B)
    (P : A -> Prop) (Q : B -> Prop) :
  (forall a b, P a -> f a = Ok b -> Q b) ->
  forall l bs, Forall P l -> mapM f l = Ok bs -> Forall Q bs.
Proof.
  intros HPQ. induction l as [|a l IH]; intros bs HP H; cbn [mapM] in H.
  - injection H as <-. constructor.
  - apply Forall_cons_iff in HP as [Ha Hl].
    destruct (f a) as [b|] eqn:Eb; cbn [rbind] in H; [|discriminate].
    destruct (mapM f l) as [bs'|]; cbn [rbind] in H; [|discriminate].
    injection H as <-. constructor; eauto.
Qed.

(** No colour has any green: every string is the colour of some
    [(r, 0, b)]. *)
Theorem green_is_always_zero (xs : list float) :
  xs <> [] -> Z.of_nat (List.length xs) <= 2 ^ 63 ->
  exists cs,
    create_colormap xs = Ok cs /\
    Forall (fun c => exists r b, c = hex_of_rgb (r, 0, b)) cs.
Proof.
  intros Hne Hsmall.
  assert (Hpos : (1 <= List.length xs)%nat)
    by (destruct xs; [congruence|cbn; lia]).
  destruct (create_colormap_total xs Hne Hsmall) as (cs & Hcs & _).
  exists cs. split; [exact Hcs|].
  rewrite create_colormap_by_length in Hcs by exact Hne.
  destruct (mapM rgb_of_row _) as [vals|] eqn:E; cbn [rbind] in Hcs; [|discriminate].
  injection Hcs as <-.
  apply Forall_map.
  eapply mapM_Forall; [|exact (np_linspace_green _ Hpos Hsmall)|exact E].
  intros [[c0 c1] c2] [[r g] b] Hc Hrgb. cbn [fst snd] in Hc. subst c1.
  unfold rgb_of_row in Hrgb.
  destruct (py_int (c0 * 255)) as [r'|]; cbn [rbind] in Hrgb; [|discriminate].
  change (py_int (0 * 255)) with (Ok 0) in Hrgb. cbn [rbind] in Hrgb.
  destruct (py_int (c2 * 255)) as [b'|]; cbn [rbind] in Hrgb; [|discriminate].
  injection Hrgb as <- <- <-. eauto.
Qed.

Lemma green_is_always_zero_witness :
  exists cs,
    create_colormap [1; 2; 3; 4; 5]%float = Ok cs /\
    Forall (fun c => exists r b, c = hex_of_rgb (r, 0, b)) cs.
Proof.
  apply (green_is_always_zero [1; 2; 3; 4; 5]%float).
  - discriminate.
  - vm_compute. discriminate.
Defined.

(** ** [fetch_data] and the renderers, continued *)

Section FetchDataMore.

Context {S : Type} (ee : EarthEngine S).

Variable input : Input.

(** What [fetch_data] returns when it returns. *)
Lemma fetch_data_returns (s : S) (v : fetched) :
  fst (run ee (server.fetch_data input) s) = Ok v ->
  v = Frame error_frame \/ exists df, v = FrameAndMap df static_map.
Proof.
  unfold server.fetch_data; cbn [pbind run].
  destruct (size_answer ee (nightlights_start input) s) as [[n1|e1] s1];
    [|discriminate].
  destruct (n1 =? 0); cbn [pbind run]; [intros H; injection H as <-; auto|].
  destruct (size_answer ee (nightlights_end input) s1) as [[n2|e2] s2];
    [|discriminate].
  destruct (n2 =? 0); cbn [pbind run]; [intros H; injection H as <-; auto|].
  destruct (features_answer ee (nightlights_start input) china_states 1000 s2)
    as [[fs|e3] s3]; [|discriminate].
  cbn [pbind run].
  destruct (features_answer ee (nightlights_end input) china_states 1000 s3)
    as [[fe|e4] s4]; [|discriminate].
  destruct (region_loop fs fe) as [data pcs].
  destruct (create_colormap pcs) as [cs|e]; cbn; [|discriminate].
  intros H; injection H as <-. right. eauto.
Qed.

(** Where a region reduction in the log comes from. *)
Lemma fetch_data_reduction_sent (s : S) (c : ImageCollection)
    (fc : FeatureCollection) (sc : Z) :
  In (ReqReduceRegions c fc sc) (snd (run ee (server.fetch_data input) s)) ->
  fc = china_states /\ sc = 1000 /\
  exists n1 n2 s1 s2,
    size_answer ee (nightlights_start input) s = (Ok n1, s1) /\ n1 <> 0 /\
    size_answer ee (nightlights_end input) s1 = (Ok n2, s2) /\ n2 <> 0.
Proof.
  unfold server.fetch_data; cbn [pbind run].
  destruct (size_answer ee (nightlights_start input) s) as [[n1|e1] s1];
    [|cbn; intros [H|[]]; discriminate].
  destruct (Z.eqb_spec n1 0) as [|Hn1]; cbn [pbind run];
    [cbn; intros [H|[]]; discriminate|].
  destruct (size_answer ee (nightlights_end input) s1) as [[n2|e2] s2] eqn:H2;
    [|cbn; intros [H|[H|[]]]; discriminate].
  destruct (Z.eqb_spec n2 0) as [|Hn2]; cbn [pbind run];
    [cbn; intros [H|[H|[]]]; discriminate|].
  intros Hin.
  assert (Hparams : fc = china_states /\ sc = 1000).
  { revert Hin.
    destruct (features_answer ee (nightlights_start input) china_states 1000 s2)
      as [[fs|e3] s3]; cbn [pbind run].
    - destruct (features_answer ee (nightlights_end input) china_states 1000 s3)
        as [[fe|e4] s4].
      + destruct (region_loop fs fe) as [data pcs].
        destruct (create_colormap pcs); cbn;
          intros [H|[H|[H|[H|[]]]]]; try discriminate;
          injection H as _ <- <-; auto.
      + cbn; intros [H|[H|[H|[H|[]]]]]; try discriminate;
          injection H as _ <- <-; auto.
    - cbn; intros [H|[H|[H|[]]]]; try discriminate;
        injection H as _ <- <-; auto. }
  destruct Hparams as [-> ->].
  split; [reflexivity|]. split; [reflexivity|].
  exists n1, n2, s1, s2. repeat split; trivial.
Qed.

End FetchDataMore.

(** The renderers hand over a value exactly when [fetch_data] returned the
    pair: the table renderer then gives the table, the map renderer the
    map, and neither ever gives a column label. *)
Theorem renderers_need_the_pair
    (S : Type) (ee : EarthEngine S) (input : Input) (s : S) (o : pyobj) :
  (server.table (fst (run ee (server.fetch_data input) s)) = Ok o <->
   exists df,
     fst (run ee (server.fetch_data input) s) = Ok (FrameAndMap df static_map)
     /\ o = PyFrame df) /\
  (server.map (fst (run ee (server.fetch_data input) s)) = Ok o <->
   exists df,
     fst (run ee (server.fetch_data input) s) = Ok (FrameAndMap df static_map)
     /\ o = PyMap static_map).
Proof.
  pose proof (fetch_data_returns ee input s) as Hret.
  destruct (fst (run ee (server.fetch_data input) s)) as [v|e].
  - destruct (Hret v eq_refl) as [-> | [df ->]]; split; split;
      cbn; try discriminate.
    + intros (df & H & _). discriminate.
    + intros (df & H & _). discriminate.
    + intros H; injection H as <-. eauto.
    + intros (df' & H & ->). injection H as <-. reflexivity.
    + intros H; injection H as <-. eauto.
    + intros (df' & H & ->). reflexivity.
  - split; split; cbn; try discriminate; intros (df & H & _); discriminate.
Qed.

(** A request that fails makes [fetch_data] raise the service's
    exception: nothing catches it, no later request is sent, and both
    renderers raise it too. *)
Theorem remote_failure_propagates
    (S : Type) (ee : EarthEngine S) (input : Input) (e : exn)
    (s s1 s2 s3 s' : S) (n1 n2 : Z) (fs : list Feature) :
  size_answer ee (nightlights_start input) s = (Raise e, s') \/
  (size_answer ee (nightlights_start input) s = (Ok n1, s1) /\ n1 <> 0 /\
   (size_answer ee (nightlights_end input) s1 = (Raise e, s') \/
    (size_answer ee (nightlights_end input) s1 = (Ok n2, s2) /\ n2 <> 0 /\
     (features_answer ee (nightlights_start input) china_states 1000 s2
        = (Raise e, s') \/
      (features_answer ee (nightlights_start input) china_states 1000 s2
         = (Ok fs, s3) /\
       features_answer ee (nightlights_end input) china_states 1000 s3
         = (Raise e, s')))))) ->
  let out := fst (run ee (server.fetch_data input) s) in
  out = Raise e /\ server.table out = Raise e /\ server.map out = Raise e.
Proof.
  intros H out.
  assert (E : out = Raise e).
  { unfold out, server.fetch_data; cbn [pbind run].
    destruct H as [H|(H1 & Hn1 & H)]; [now rewrite H|].
    rewrite H1. destruct (Z.eqb_spec n1 0) as [|_]; [contradiction|].
    cbn [pbind run].
    destruct H as [H|(H2 & Hn2 & H)]; [now rewrite H|].
    rewrite H2. destruct (Z.eqb_spec n2 0) as [|_]; [contradiction|].
    cbn [pbind run].
    destruct H as [H|(H3 & H4)]; [now rewrite H|].
    rewrite H3. cbn [pbind run]. now rewrite H4. }
  rewrite E. repeat split.
Qed.

Lemma remote_failure_propagates_witness :
  let out := fst (run ee_end_reduction_fails (server.fetch_data jan_to_feb) tt) in
  out = Raise (EEException "Computation timed out.") /\
  server.table out = Raise (EEException "Computation timed out.") /\
  server.map out = Raise (EEException "Computation timed out.").
Proof.
  apply (remote_failure_propagates unit ee_end_reduction_fails jan_to_feb
           (EEException "Computation timed out.") tt tt tt tt tt 1 1
           (two_regions (nightlights 2024 1))).
  right. split; [reflexivity|]. split; [discriminate|].
  right. split; [reflexivity|]. split; [discriminate|].
  right. split; reflexivity.
Defined.

(** With images in both months but no pair of features (one of the two
    reductions answers with no feature), [fetch_data] raises [ValueError]
    instead of returning an empty table. *)
Theorem no_regions_raises
    (S : Type) (ee : EarthEngine S) (input : Input)
    (s s1 s2 s3 s4 : S) (n1 n2 : Z) (fs fe : list Feature) :
  size_answer ee (nightlights_start input) s = (Ok n1, s1) -> n1 <> 0 ->
  size_answer ee (nightlights_end input) s1 = (Ok n2, s2) -> n2 <> 0 ->
  features_answer ee (nightlights_start input) china_states 1000 s2
    = (Ok fs, s3) ->
  features_answer ee (nightlights_end input) china_states 1000 s3
    = (Ok fe, s4) ->
  fs = [] \/ fe = [] ->
  fst (run ee (server.fetch_data input) s) = Raise ValueError.
Proof.
  intros H1 Hn1 H2 Hn2 H3 H4 Hempty.
  rewrite (fetch_data_features ee input s s1 s2 s3 s4 n1 n2 fs fe
             H1 Hn1 H2 Hn2 H3 H4).
  assert (E : combine fs fe = []).
  { destruct Hempty as [-> | ->]; [reflexivity|]. now destruct fs. }
  unfold region_loop. rewrite E. reflexivity.
Qed.

Lemma no_regions_raises_witness :
  fst (run ee_no_regions (server.fetch_data jan_to_feb) tt) = Raise ValueError.
Proof.
  apply (no_regions_raises unit ee_no_regions jan_to_feb tt tt tt tt tt 1 1 [] []);
    try reflexivity; try discriminate.
  left. reflexivity.
Defined.

(** A table that comes with a map is never empty: it has the four
    columns, a row of four cells for every pair of features, and at
    least one row. *)
Theorem returned_table_shape
    (S : Type) (ee : EarthEngine S) (input : Input) (s : S)
    (df : DataFrame) (m : Map) :
  fst (run ee (server.fetch_data input) s) = Ok (FrameAndMap df m) ->
  columns df = [ "State"; "Start Mean Radiance"; "End Mean Radiance";
                 "Percentage Change" ]%string /\
  rows df <> [] /\
  Forall (fun r => List.length r = 4%nat) (rows df) /\
  exists s2 s3 s4 fs fe,
    features_answer ee (nightlights_start input) china_states 1000 s2
      = (Ok fs, s3) /\
    features_answer ee (nightlights_end input) china_states 1000 s3
      = (Ok fe, s4) /\
    List.length (rows df) = Nat.min (List.length fs) (List.length fe).
Proof.
  intros H.
  destruct (fetch_data_success ee input s df m H)
    as (s2 & s3 & s4 & fs & fe & cs & Hs & He & Hcs & -> & _).
  assert (Hne : fst (region_loop fs fe) <> []).
  { intros E. rewrite changes_of_rows, E in Hcs. discriminate. }
  assert (Hlen : List.length (fst (region_loop fs fe))
                 = Nat.min (List.length fs) (List.length fe)).
  { rewrite <- length_combine, region_loop_data.
    induction (combine fs fe) as [|p ps IH]; cbn [flat_map]; [reflexivity|].
    rewrite length_app, IH.
    destruct (loop_body_one_row p) as [row ->]. reflexivity. }
  unfold DataFrame_of_records; cbn [columns rows].
  split; [destruct (fst (region_loop fs fe)); [congruence|reflexivity]|].
  split; [destruct (fst (region_loop fs fe)); [congruence|discriminate]|].
  split; [apply Forall_map, Forall_forall; reflexivity|].
  exists s2, s3, s4, fs, fe. rewrite length_map. auto.
Qed.

Lemma returned_table_shape_witness :
  columns (DataFrame_of_records
             (fst (region_loop (two_regions (nightlights 2024 1))
                               (two_regions (nightlights 2024 2)))))
    = [ "State"; "Start Mean Radiance"; "End Mean Radiance";
        "Percentage Change" ]%string.
Proof.
  refine (proj1 (returned_table_shape unit ee_two_regions jan_to_feb tt
                   _ static_map _)).
  vm_compute. reflexivity.
Defined.

(** Regions are only reduced after both months were found to have
    images, and always over the provinces of China at scale 1000. *)
Theorem reductions_only_after_both_sizes
    (S : Type) (ee : EarthEngine S) (input : Input) (s : S)
    (c : ImageCollection) (fc : FeatureCollection) (sc : Z) :
  In (ReqReduceRegions c fc sc) (snd (run ee (server.fetch_data input) s)) ->
  fc = china_states /\ sc = 1000 /\
  exists n1 n2 s1 s2,
    size_answer ee (nightlights_start input) s = (Ok n1, s1) /\ n1 <> 0 /\
    size_answer ee (nightlights_end input) s1 = (Ok n2, s2) /\ n2 <> 0.
Proof. apply fetch_data_reduction_sent. Qed.

Lemma reductions_only_after_both_sizes_witness :
  china_states = china_states /\ 1000 = 1000 /\
  exists n1 n2 s1 s2,
    size_answer ee_two_regions (nightlights_start jan_to_feb) tt = (Ok n1, s1)
      /\ n1 <> 0 /\
    size_answer ee_two_regions (nightlights_end jan_to_feb) s1 = (Ok n2, s2)
      /\ n2 <> 0.
Proof.
  apply (reductions_only_after_both_sizes unit ee_two_regions jan_to_feb tt
           (nightlights 2024 2) china_states 1000).
  vm_compute. auto.
Defined.

(** ** Dates and the status line *)

Lemma in_Zrange (lo n z : Z) :
  lo <= z < lo + n -> In z (Zrange lo n).
Proof.
  intros H. unfold Zrange. apply in_map_iff.
  exists (Z.to_nat (z - lo)). split; [lia|]. apply in_seq. lia.
Qed.

Lemma format_d_four_digits (y : Z) :
  1000 <= y <= 9999 -> format_d y = digits4 y.
Proof.
  intros H.
  assert (All : forallb (fun y => String.eqb (format_d y) (digits4 y))
                  (Zrange 1000 9000) = true) by (vm_compute; reflexivity).
  rewrite forallb_forall in All.
  apply String.eqb_eq, All, in_Zrange. lia.
Qed.

Lemma format_02d_two_digits (m : Z) :
  0 <= m <= 99 -> format_02d m = digits2 m.
Proof.
  intros H.
  assert (All : forallb (fun m => String.eqb (format_02d m) (digits2 m))
                  (Zrange 0 100) = true) by (vm_compute; reflexivity).
  rewrite forallb_forall in All.
  apply String.eqb_eq, All, in_Zrange. lia.
Qed.

Lemma dates_for_any_month_aux (y m : Z) :
  1000 <= y <= 9999 -> 1 <= m <= 12 ->
  ic_date (nightlights y m) = (yyyy_mm_dd y m 1, yyyy_mm_dd y m 28).
Proof.
  intros Hy Hm. unfold nightlights; cbn [ic_date].
  rewrite (format_d_four_digits y Hy), (format_02d_two_digits m) by lia.
  reflexivity.
Qed.

(** For any four-digit year and any month, not only those of the form,
    the collection is filtered from [YYYY-MM-01] to [YYYY-MM-28]: the end
    day is 28 whatever the length of the month. *)
Theorem dates_for_any_month (y m : Z) :
  1000 <= y <= 9999 -> 1 <= m <= 12 ->
  ic_date (nightlights y m) = (yyyy_mm_dd y m 1, yyyy_mm_dd y m 28).
Proof. exact (dates_for_any_month_aux y m). Qed.

Lemma dates_for_any_month_witness :
  ic_date (nightlights 1999 12) = ("1999-12-01", "1999-12-28")%string.
Proof.
  apply (dates_for_any_month 1999 12); lia.
Defined.

(** The status line names the selected years with four digits and the
    months with two. *)
Theorem info_shape (input : Input) :
  1000 <= start_year input <= 9999 -> 1 <= start_month input <= 12 ->
  1000 <= end_year input <= 9999 -> 1 <= end_month input <= 12 ->
  server.info input =
    ("Showing data for " ++ digits4 (start_year input) ++ " - "
       ++ digits2 (start_month input) ++ " to "
       ++ digits4 (end_year input) ++ " - "
       ++ digits2 (end_month input))%string
  /\ String.length (server.info input) = 39%nat.
Proof.
  intros Hsy Hsm Hey Hem. unfold server.info.
  rewrite !format_d_four_digits, !format_02d_two_digits by lia.
  split; reflexivity.
Qed.

Lemma info_shape_witness :
  server.info jan_to_feb = "Showing data for 2024 - 01 to 2024 - 02"%string
  /\ String.length (server.info jan_to_feb) = 39%nat.
Proof.
  apply (info_shape jan_to_feb); vm_compute; split; discriminate.
Defined.

Lemma digit_char_inj (a b : Z) :
  digit_char a = digit_char b -> a mod 10 = b mod 10.
Proof.
  unfold digit_char. intros H.
  assert (Ha : 0 <= a mod 10 < 10) by (apply Z.mod_pos_bound; lia).
  assert (Hb : 0 <= b mod 10 < 10) by (apply Z.mod_pos_bound; lia).
  apply (f_equal nat_of_ascii) in H.
  rewrite !nat_ascii_embedding in H; lia.
Qed.

Lemma same_tens_and_units (a b : Z) :
  a / 10 = b / 10 -> a mod 10 = b mod 10 -> a = b.
Proof.
  intros Hq Hr. rewrite (Z.div_mod a 10), (Z.div_mod b 10) by lia.
  now rewrite Hq, Hr.
Qed.

(** Two selections share a date range only if they are the same year and
    month. *)
Theorem distinct_months_distinct_ranges (y m y' m' : Z) :
  1000 <= y <= 9999 -> 1 <= m <= 12 ->
  1000 <= y' <= 9999 -> 1 <= m' <= 12 ->
  nightlights y m = nightlights y' m' -> y = y' /\ m = m'.
Proof.
  intros Hy Hm Hy' Hm' H.
  apply (f_equal ic_date) in H.
  rewrite !dates_for_any_month_aux in H by assumption.
  apply (f_equal fst) in H. cbn [fst] in H. unfold yyyy_mm_dd in H.
  injection H as H1 H2 H3 H4 H5 H6.
  apply digit_char_inj in H1, H2, H3, H4, H5, H6.
  assert (E1 : y / 1000 = y' / 1000).
  { rewrite !Z.mod_small in H1; [exact H1| |];
      (split; [apply Z.div_pos|apply Z.div_lt_upper_bound]; lia). }
  assert (E2 : y / 100 = y' / 100).
  { apply same_tens_and_units; [|exact H2].
    rewrite !Z.div_div by lia. exact E1. }
  assert (E3 : y / 10 = y' / 10).
  { apply same_tens_and_units; [|exact H3].
    rewrite !Z.div_div by lia. exact E2. }
  split; apply same_tens_and_units; trivial.
  rewrite !Z.mod_small in H5; [exact H5| |];
    (split; [apply Z.div_pos|apply Z.div_lt_upper_bound]; lia).
Qed.

Lemma distinct_months_distinct_ranges_witness :
  2025 = 2025 /\ 7 = 7.
Proof.
  apply (distinct_months_distinct_ranges 2025 7 2025 7); try lia.
  reflexivity.
Defined.

(** ** Not-a-number means *)

Lemma nan_is_truthy : truthy (Some nan) = true.
Proof. reflexivity. Qed.

Lemma sub_nan_r (x : float) : (x - nan)%float = nan.
Proof.
  rewrite <- (SF2Prim_Prim2SF (x - nan)), sub_spec.
  change (Prim2SF nan) with S754_nan.
  unfold SF64sub, SFsub. now destruct (Prim2SF x).
Qed.

Lemma div_nan_l (x : float) : (nan / x)%float = nan.
Proof.
  rewrite <- (SF2Prim_Prim2SF (nan / x)), div_spec.
  change (Prim2SF nan) with S754_nan. reflexivity.
Qed.

(** NaN is truthy: a region whose start or end mean is NaN, the other
    mean being truthy, gets the percentage change NaN, and that NaN is
    among the values handed to [create_colormap]. *)
Theorem nan_mean_gives_nan
    (fs fe : list Feature) (i : nat) (sf ef : Feature) (s e : float) :
  nth_error fs i = Some sf -> nth_error fe i = Some ef ->
  mean sf = Some s -> mean ef = Some e ->
  truthy (Some s) = true -> truthy (Some e) = true ->
  s = nan \/ e = nan ->
  exists row,
    nth_error (fst (region_loop fs fe)) i = Some row /\
    Percentage_Change row = Some nan /\
    In nan (snd (region_loop fs fe)).
Proof.
  intros Hs He Ms Me Ts Te Hnan.
  destruct (region_loop_nth fs fe i sf ef Hs He) as [row [Hrow Hnth]].
  exists row. split; [exact Hnth|].
  unfold loop_body in Hrow; cbn [fst app] in Hrow.
  rewrite Ms, Me, Ts, Te in Hrow; cbn [andb] in Hrow.
  assert (Epc : ((e - s) / s * 100)%float = nan).
  { destruct Hnan as [-> | ->].
    - rewrite sub_nan_r, div_nan_l. reflexivity.
    - rewrite <- (SF2Prim_Prim2SF (nan - s)), sub_spec.
      change (Prim2SF nan) with S754_nan. cbn [SF64sub SFsub SF2Prim].
      rewrite div_nan_l. reflexivity. }
  rewrite Epc in Hrow. injection Hrow as <-. split; [reflexivity|].
  rewrite changes_of_rows. apply in_flat_map.
  eexists. split; [exact (nth_error_In _ _ Hnth)|]. cbn. auto.
Qed.

Lemma nan_mean_gives_nan_witness :
  exists row,
    nth_error (fst (region_loop
                      [ {| ADM1_NAME := "Anhui Sheng"; mean := Some 10%float |} ]
                      [ {| ADM1_NAME := "Anhui Sheng"; mean := Some nan |} ])) 0
      = Some row /\
    Percentage_Change row = Some nan /\
    In nan (snd (region_loop
                   [ {| ADM1_NAME := "Anhui Sheng"; mean := Some 10%float |} ]
                   [ {| ADM1_NAME := "Anhui Sheng"; mean := Some nan |} ])).
Proof.
  apply (nan_mean_gives_nan _ _ 0%nat
           {| ADM1_NAME := "Anhui Sheng"; mean := Some 10%float |}
           {| ADM1_NAME := "Anhui Sheng"; mean := Some nan |} 10%float nan);
    try reflexivity.
  right. reflexivity.
Defined.

(** ** The requests of a successful run *)

(** A run that returns the table and the map has sent exactly four
    requests: the size of each month's collection, then the region
    reduction of each month. *)
Theorem success_sends_four_requests
    (S : Type) (ee : EarthEngine S) (input : Input) (s : S)
    (df : DataFrame) (m : Map) :
  fst (run ee (server.fetch_data input) s) = Ok (FrameAndMap df m) ->
  snd (run ee (server.fetch_data input) s) =
    [ ReqSize (nightlights_start input); ReqSize (nightlights_end input);
      ReqReduceRegions (nightlights_start input) china_states 1000;
      ReqReduceRegions (nightlights_end input) china_states 1000 ].
Proof.
  unfold server.fetch_data; cbn [pbind run].
  destruct (size_answer ee (nightlights_start input) s) as [[n1|e1] s1];
    [|discriminate].
  destruct (n1 =? 0); cbn [pbind run]; [discriminate|].
  destruct (size_answer ee (nightlights_end input) s1) as [[n2|e2] s2];
    [|discriminate].
  destruct (n2 =? 0); cbn [pbind run]; [discriminate|].
  destruct (features_answer ee (nightlights_start input) china_states 1000 s2)
    as [[fs|e3] s3]; [|discriminate].
  cbn [pbind run].
  destruct (features_answer ee (nightlights_end input) china_states 1000 s3)
    as [[fe|e4] s4]; [|discriminate].
  destruct (region_loop fs fe) as [data pcs].
  destruct (create_colormap pcs) as [cs|e]; cbn; [reflexivity|discriminate].
Qed.

Lemma success_sends_four_requests_witness :
  snd (run ee_two_regions (server.fetch_data jan_to_feb) tt) =
    [ ReqSize (nightlights_start jan_to_feb); ReqSize (nightlights_end jan_to_feb);
      ReqReduceRegions (nightlights_start jan_to_feb) china_states 1000;
      ReqReduceRegions (nightlights_end jan_to_feb) china_states 1000 ].
Proof.
  apply (success_sends_four_requests unit ee_two_regions jan_to_feb tt
           (DataFrame_of_records
              (fst (region_loop (two_regions (nightlights 2024 1))
                                (two_regions (nightlights 2024 2)))))
           static_map).
  vm_compute. reflexivity.
Defined.
